(** * WORKLO resume tailoring: the document / structured-text codec and the
      section rewriter, embedded in Rocq.

    Sources embedded here:
    - [resume_txt_converter.py]   (class [ResumeTextConverter]): module [Converter]
    - [automated_resume_tailor.py] (class [ResumeTailor], the formatting
      helpers [_build_style_anchors] ... [_clone_paragraph_after]): module [Tailor]
    - [tailor_resume_strict.py]   ([rewrite_section_from_lines], [apply_content]):
      module [Strict]

    Python strings are sequences of Unicode code points; a word-processing
    document is its ordered list of paragraphs, each paragraph carrying its
    paragraph properties and its runs. *)

From Stdlib Require Import Ascii String.
From Stdlib Require Import ZArith NArith Lia Bool Arith PeanoNat List.
Import ListNotations.

Set Implicit Arguments.

(* ================================================================= *)
(** ** Python strings *)

Definition char := N.
Definition str := list char.

(** A literal of the source, written with Basic Latin characters only. *)
Definition lit (s : string) : str := map N_of_ascii (list_ascii_of_string s).
Arguments lit s%_string.

(** The bullet glyph U+2022. *)
Definition bullet : char := 8226%N.

Definition ch (a : ascii) : char := N_of_ascii a.
Arguments ch a%_char.

Fixpoint str_eqb (s t : str) : bool :=
  match s, t with
  | [], [] => true
  | a :: s', b :: t' => (a =? b)%N && str_eqb s' t'
  | _, _ => false
  end.

(** [s.startswith(pre)] *)
Fixpoint startswith (pre s : str) : bool :=
  match pre, s with
  | [], _ => true
  | _ :: _, [] => false
  | a :: pre', b :: s' => (a =? b)%N && startswith pre' s'
  end.

(** [s.endswith(suf)] *)
Definition endswith (suf s : str) : bool := startswith (rev suf) (rev s).

(** [sub in s] *)
Fixpoint contains (sub s : str) : bool :=
  startswith sub s ||
  match s with
  | [] => false
  | _ :: s' => contains sub s'
  end.

Fixpoint lstrip_by (f : char -> bool) (s : str) : str :=
  match s with
  | [] => []
  | c :: s' => if f c then lstrip_by f s' else s
  end.

Definition rstrip_by (f : char -> bool) (s : str) : str :=
  rev (lstrip_by f (rev s)).

(** [s.split(sep)] for a one-character separator. *)
Fixpoint split (sep : char) (s : str) : list str :=
  match s with
  | [] => [[]]
  | c :: s' =>
      if (c =? sep)%N then [] :: split sep s'
      else match split sep s' with
           | [] => [[c]]
           | w :: ws => (c :: w) :: ws
           end
  end.

(** [s.split(sep, 1)] *)
Fixpoint split1 (sep : char) (s : str) : list str :=
  match s with
  | [] => [[]]
  | c :: s' =>
      if (c =? sep)%N then [[]; s']
      else match split1 sep s' with
           | [] => [[c]]
           | w :: ws => (c :: w) :: ws
           end
  end.

(** [sep.join(l)] *)
Fixpoint join (sep : str) (l : list str) : str :=
  match l with
  | [] => []
  | x :: l' =>
      match l' with
      | [] => x
      | _ :: _ => x ++ sep ++ join sep l'
      end
  end.

(** [s.replace(old, new)], left to right, occurrences not overlapping.
    [skip] counts the characters of a match still to be dropped. *)
Fixpoint replace_from (old new : str) (skip : nat) (s : str) : str :=
  match s with
  | [] => []
  | c :: s' =>
      match skip with
      | S k => replace_from old new k s'
      | O =>
          if startswith old s
          then new ++ replace_from old new (length old - 1) s'
          else c :: replace_from old new 0 s'
      end
  end.

Definition replace (old new s : str) : str :=
  match old with
  | [] => s
  | _ :: _ => replace_from old new 0 s
  end.

(** Truth value of a string: non-empty. *)
Definition nonempty (s : str) : bool :=
  match s with [] => false | _ :: _ => true end.

(** The character classes and case mappings of the Unicode database, as
    CPython's [str] methods and [re] use them. *)
Class Unicode := {
  isspace : char -> bool;   (* str.isspace, str.strip, regex \s *)
  isdecimal : char -> bool; (* str.isdecimal, regex \d *)
  upper : str -> str;       (* str.upper *)
  lower : str -> str;       (* str.lower *)
  isupper : str -> bool     (* str.isupper *)
}.

Section StringOps.
Context {U : Unicode}.

(** [s.strip()] *)
Definition strip (s : str) : str := rstrip_by isspace (lstrip_by isspace s).

(** [s.split()]: the maximal runs of non-whitespace characters.
    [cur] is the word being read, reversed. *)
Fixpoint split_ws_from (cur : str) (s : str) : list str :=
  match s with
  | [] => match cur with [] => [] | _ :: _ => [rev cur] end
  | c :: s' =>
      if isspace c
      then match cur with
           | [] => split_ws_from [] s'
           | _ :: _ => rev cur :: split_ws_from [] s'
           end
      else split_ws_from (c :: cur) s'
  end.

Definition split_ws (s : str) : list str := split_ws_from [] s.

(** [re.sub(r"\s+", " ", s)]: every maximal run of whitespace becomes one
    space.  [in_run] tells that the previous character was whitespace. *)
Fixpoint collapse_ws_from (in_run : bool) (s : str) : str :=
  match s with
  | [] => []
  | c :: s' =>
      if isspace c
      then (if in_run then collapse_ws_from true s'
            else ch " " :: collapse_ws_from true s')
      else c :: collapse_ws_from false s'
  end.

Definition collapse_ws (s : str) : str := collapse_ws_from false s.

End StringOps.

(** The Basic Latin fragment of the Unicode database: the whitespace
    characters are CPython's complete list, the decimal digits and the cased
    letters are those of Basic Latin.  On texts written with Basic Latin
    characters (and the bullet glyph) the operations below are CPython's. *)
Module BasicLatin.

Definition between (lo hi c : char) : bool := ((lo <=? c) && (c <=? hi))%N.
Arguments between (lo hi c)%_N.

Definition isspace (c : char) : bool :=
  between 9 13 c || between 28 32 c || (c =? 133)%N || (c =? 160)%N ||
  (c =? 5760)%N || between 8192 8202 c || (c =? 8232)%N || (c =? 8233)%N ||
  (c =? 8239)%N || (c =? 8287)%N || (c =? 12288)%N.

Definition isdecimal (c : char) : bool := between 48 57 c.

Definition is_upper_letter (c : char) : bool := between 65 90 c.
Definition is_lower_letter (c : char) : bool := between 97 122 c.

Definition upper (s : str) : str :=
  map (fun c => if is_lower_letter c then (c - 32)%N else c) s.

Definition lower (s : str) : str :=
  map (fun c => if is_upper_letter c then (c + 32)%N else c) s.

(** [s.isupper()]: at least one cased character, and no lower-case one. *)
Definition isupper (s : str) : bool :=
  existsb is_upper_letter s && negb (existsb is_lower_letter s).

End BasicLatin.

#[export] Instance basic_latin : Unicode := {|
  isspace := BasicLatin.isspace;
  isdecimal := BasicLatin.isdecimal;
  upper := BasicLatin.upper;
  lower := BasicLatin.lower;
  isupper := BasicLatin.isupper
|}.

(* ================================================================= *)
(** ** Documents *)

Inductive Alignment := LEFT | CENTER | RIGHT | JUSTIFY.

(** A run: a span of text with one set of character formatting.  A property
    that the run does not set is [None]. *)
Record Run := mkRun {
  r_text : str;
  font_name : option string;
  font_size : option Z;        (* points *)
  bold : option bool;
  italic : option bool;
  underline : option bool
}.

(** A paragraph node.  [ident] is the identity of the node (two paragraph
    objects are the same object when their [ident]s agree); [numPr] is the
    numbering property (level, list id) of a list paragraph. *)
Record Paragraph := mkParagraph {
  ident : nat;
  alignment : option Alignment;
  space_before : option Z;     (* points *)
  space_after : option Z;
  left_indent : option Z;
  numPr : option (nat * nat);
  runs : list Run
}.

Definition Document := list Paragraph.

(** [paragraph.text] *)
Definition text (p : Paragraph) : str := concat (map r_text (runs p)).

(** The formatting of a run and of a paragraph, text left out. *)
Record RunFormat := mkRunFormat {
  rf_font : option string;
  rf_size : option Z;
  rf_bold : option bool;
  rf_italic : option bool;
  rf_underline : option bool
}.

Record Signature := mkSignature {
  sig_alignment : option Alignment;
  sig_space_before : option Z;
  sig_space_after : option Z;
  sig_indent : option Z;
  sig_numPr : option (nat * nat);
  sig_runs : list RunFormat
}.

Definition run_format (r : Run) : RunFormat :=
  mkRunFormat (font_name r) (font_size r) (bold r) (italic r) (underline r).

(** Modelled from the spec: [paragraph_xml_signature(p, ignore_text=True)] is
    called by [tailor_resume_strict.py] but defined nowhere in the source.
    Spec 4.1: the signature incorporates the paragraph's alignment, spacing
    before and after, indentation, its numbering properties, and for each run,
    in run order, font name, size, bold, italic and underline; it does not
    incorporate the text of any run. *)
Definition paragraph_xml_signature (p : Paragraph) : Signature :=
  mkSignature (alignment p) (space_before p) (space_after p) (left_indent p)
              (numPr p) (map run_format (runs p)).

Definition Signature_eq_dec (a b : Signature) : {a = b} + {a <> b}.
Proof.
  repeat decide equality; try apply Z.eq_dec; try apply string_dec.
Defined.

Definition sig_eqb (a b : Signature) : bool :=
  if Signature_eq_dec a b then true else false.

Definition is_some {A} (o : option A) : bool :=
  match o with Some _ => true | None => false end.

(* ================================================================= *)
(** ** The document as a mutable object *)

(** The functions that rewrite sections hold references to paragraph nodes
    and change the document through them.  A reference is a [Paragraph]
    value: its [ident] says which node it is.  The store keeps the nodes of
    the document in document order, and the next unused identity. *)
Record Store := mkStore {
  paragraphs : Document;
  next_ident : nat
}.

Definition same_node (p q : Paragraph) : bool := ident p =? ident q.

(** The present state of the node [p] refers to.  A node that is not in the
    document is in the state the reference holds. *)
Definition deref (st : Store) (p : Paragraph) : Paragraph :=
  match find (same_node p) (paragraphs st) with
  | Some q => q
  | None => p
  end.

(** Changes the node of [p] in place. *)
Definition update (st : Store) (p : Paragraph) (f : Paragraph -> Paragraph)
    : Store :=
  mkStore (map (fun q => if same_node p q then f q else q) (paragraphs st))
          (next_ident st).

(** [ref._element.addnext(new)]: [new] becomes the next sibling of [ref]. *)
Fixpoint insert_after (doc : Document) (ref new : Paragraph) : Document :=
  match doc with
  | [] => []
  | q :: doc' =>
      if same_node ref q then q :: new :: doc'
      else q :: insert_after doc' ref new
  end.

Definition addnext (st : Store) (ref new : Paragraph) : Store :=
  mkStore (insert_after (paragraphs st) ref new) (next_ident st).

(** Takes the node of [p] out of the document. *)
Definition remove (st : Store) (p : Paragraph) : Store :=
  mkStore (filter (fun q => negb (same_node p q)) (paragraphs st))
          (next_ident st).

Definition with_ident (i : nat) (p : Paragraph) : Paragraph :=
  mkParagraph i (alignment p) (space_before p) (space_after p)
              (left_indent p) (numPr p) (runs p).

Definition with_runs (rs : list Run) (p : Paragraph) : Paragraph :=
  mkParagraph (ident p) (alignment p) (space_before p) (space_after p)
              (left_indent p) (numPr p) rs.

(** [deepcopy(p._element)]: a new node, not yet in the document, with the
    properties, the runs and the text of [p]. *)
Definition deepcopy (st : Store) (p : Paragraph) : Store * Paragraph :=
  (mkStore (paragraphs st) (S (next_ident st)),
   with_ident (next_ident st) (deref st p)).

Definition set_run_text (t : str) (r : Run) : Run :=
  mkRun t (font_name r) (font_size r) (bold r) (italic r) (underline r).

(** The text of the first run becomes [new_text] and the text of the other
    runs becomes empty; a paragraph without runs gets one run, which sets no
    character property. *)
Definition replace_text (new_text : str) (p : Paragraph) : Paragraph :=
  match runs p with
  | r :: rs =>
      with_runs (set_run_text new_text r :: map (set_run_text []) rs) p
  | [] => with_runs [mkRun new_text None None None None None] p
  end.

(* ================================================================= *)
(** ** automated_resume_tailor.py: anchors and sections *)

Module Tailor.
Section WithUnicode.
Context {U : Unicode}.

Definition _is_all_caps_header (text : str) : bool :=
  let t := strip text in
  isupper t && (0 <? length t) && (length t <=? 48).

Definition _has_numbering (paragraph : Paragraph) : bool :=
  is_some (numPr paragraph).

(** The [anchors] dictionary: its four keys are fixed at creation. *)
Record Anchors := mkAnchors {
  SectionHeader : option Paragraph;
  Bullet : option Paragraph;
  Body : option Paragraph;
  Contact : option Paragraph
}.

(** [all(anchors.values())] *)
Definition all_found (a : Anchors) : bool :=
  is_some (SectionHeader a) && is_some (Bullet a) && is_some (Body a) &&
  is_some (Contact a).

(** One iteration of the loop of [_build_style_anchors]. *)
Definition anchors_step (p : Paragraph) (anchors : Anchors) : Anchors :=
  let text := strip (text p) in
  let anchors :=
    if negb (is_some (SectionHeader anchors)) && _is_all_caps_header text
    then mkAnchors (Some p) (Bullet anchors) (Body anchors) (Contact anchors)
    else anchors in
  let anchors :=
    if negb (is_some (Contact anchors)) &&
       (contains (lit "@") text || contains (lit "phone") (lower text) ||
        contains (lit "linkedin") (lower text))
    then mkAnchors (SectionHeader anchors) (Bullet anchors) (Body anchors) (Some p)
    else anchors in
  let anchors :=
    if negb (is_some (Bullet anchors)) &&
       (_has_numbering p || startswith [bullet] text ||
        startswith (lit "- ") text)
    then mkAnchors (SectionHeader anchors) (Some p) (Body anchors) (Contact anchors)
    else anchors in
  if negb (is_some (Body anchors)) && nonempty text &&
     negb (_is_all_caps_header text) && negb (_has_numbering p)
  then mkAnchors (SectionHeader anchors) (Bullet anchors) (Some p) (Contact anchors)
  else anchors.

Fixpoint anchors_loop (ps : list Paragraph) (anchors : Anchors) : Anchors :=
  match ps with
  | [] => anchors
  | p :: ps' =>
      let anchors := anchors_step p anchors in
      if all_found anchors then anchors else anchors_loop ps' anchors
  end.

Definition _build_style_anchors (doc : Document) : Anchors :=
  anchors_loop doc (mkAnchors None None None None).

(** A section: its header paragraph, or [None], and its body paragraphs. *)
Definition DocSection : Type := option Paragraph * list Paragraph.

(** The loop of [_locate_sections], with its three local variables. *)
Fixpoint locate_loop (ps : list Paragraph) (sections : list DocSection)
    (current_header : option Paragraph) (current_body : list Paragraph)
    : list DocSection * option Paragraph * list Paragraph :=
  match ps with
  | [] => (sections, current_header, current_body)
  | p :: ps' =>
      let text := strip (text p) in
      if _is_all_caps_header text then
        let sections :=
          match current_header with
          | Some h => sections ++ [(Some h, current_body)]
          | None => sections
          end in
        locate_loop ps' sections (Some p) []
      else
        match current_header with
        | Some _ => locate_loop ps' sections current_header (current_body ++ [p])
        | None => locate_loop ps' sections current_header (current_body ++ [p])
        end
  end.

Definition _locate_sections (doc : Document) : list DocSection :=
  let '(sections, current_header, current_body) := locate_loop doc [] None [] in
  match current_header with
  | Some h => sections ++ [(Some h, current_body)]
  | None =>
      match current_body with
      | [] => sections
      | _ :: _ => sections ++ [(None, current_body)]
      end
  end.

(** [_replace_paragraph_text]: the text of the first run is replaced and the
    other runs are emptied, or a run is added to a paragraph that has none.
    [_verify_paragraph_formatting_preserved], called at its end, only writes
    to the log. *)
Definition _replace_paragraph_text (st : Store) (paragraph : Paragraph)
    (new_text : str) : Store :=
  update st paragraph (replace_text new_text).

Definition _choose_anchor (line : str) (anchors : Anchors)
    : option Paragraph :=
  if startswith [bullet] line || startswith (lit "- ") line ||
     contains [bullet] line
  then Bullet anchors
  else if _is_all_caps_header line then SectionHeader anchors
  else Body anchors.

(** [_clone_paragraph_after]: a deep copy of the anchor's node is inserted
    after the reference paragraph.  [_verify_cloned_paragraph_formatting]
    only writes to the log. *)
Definition _clone_paragraph_after (st : Store)
    (ref_paragraph anchor_paragraph : Paragraph) : Store * Paragraph :=
  let '(st, new_element) := deepcopy st anchor_paragraph in
  (addnext st ref_paragraph new_element, new_element).

(** The first loop of [_replace_section_body]; the state is the document and
    the list [template_paragraphs], which the loop extends. *)
Fixpoint replace_lines (i : nat) (new_lines : list str) (anchors : Anchors)
    (st : Store) (template_paragraphs : list Paragraph)
    : Store * list Paragraph :=
  match new_lines with
  | [] => (st, template_paragraphs)
  | line :: rest =>
      match nth_error template_paragraphs i with
      | Some p =>
          (* i < len(template_paragraphs) *)
          replace_lines (S i) rest anchors
            (_replace_paragraph_text st p line) template_paragraphs
      | None =>
          let anchor := _choose_anchor line anchors in
          match anchor, template_paragraphs with
          | Some anchor, _ :: _ =>
              let '(st, new_p) :=
                _clone_paragraph_after st (last template_paragraphs anchor)
                                       anchor in
              let st := _replace_paragraph_text st new_p line in
              replace_lines (S i) rest anchors st
                            (template_paragraphs ++ [new_p])
          | _, _ => replace_lines (S i) rest anchors st template_paragraphs
          end
      end
  end.

(** The second loop: the template paragraphs beyond the new lines have their
    text cleared. *)
Definition clear_excess (n : nat) (st : Store)
    (template_paragraphs : list Paragraph) : Store :=
  fold_left (fun st p => _replace_paragraph_text st p [])
            (skipn n template_paragraphs) st.

Definition _replace_section_body (st : Store)
    (template_paragraphs : list Paragraph) (new_lines : list str)
    (anchors : Anchors) : Store * list Paragraph :=
  let '(st, template_paragraphs) :=
    replace_lines 0 new_lines anchors st template_paragraphs in
  (clear_excess (length new_lines) st template_paragraphs,
   template_paragraphs).

(** *** Reading the text of a document, parsing generated content *)

(** The line feed character. *)
Definition newline : char := 10%N.

(** The list [text_parts] of [_read_docx_text]: the trimmed texts of the
    paragraphs that are not blank. *)
Fixpoint text_parts_of (doc : Document) : list str :=
  match doc with
  | [] => []
  | paragraph :: rest =>
      if nonempty (strip (text paragraph))
      then strip (text paragraph) :: text_parts_of rest
      else text_parts_of rest
  end.

(** [_read_docx_text], for a document that could be opened. *)
Definition _read_docx_text (doc : Document) : str :=
  join [newline] (text_parts_of doc).

(** The keys of the dictionary that [_parse_content_into_sections] builds. *)
Inductive ContentKey :=
  C_HEADER | C_SUMMARY | C_SKILLS | C_EXPERIENCE | C_PROJECTS | C_EDUCATION.

Definition ContentKey_eqb (a b : ContentKey) : bool :=
  match a, b with
  | C_HEADER, C_HEADER | C_SUMMARY, C_SUMMARY | C_SKILLS, C_SKILLS
  | C_EXPERIENCE, C_EXPERIENCE | C_PROJECTS, C_PROJECTS
  | C_EDUCATION, C_EDUCATION => true
  | _, _ => false
  end.

Definition ContentSections := ContentKey -> option (list str).

Definition set_content (sections : ContentSections) (k : ContentKey)
    (v : list str) : ContentSections :=
  fun k' => if ContentKey_eqb k' k then Some v else sections k'.

(** The dictionary [section_keywords], in the order of its items. *)
Definition content_keywords : list (ContentKey * list str) :=
  [(C_SUMMARY, [lit "PROFESSIONAL SUMMARY"; lit "SUMMARY"; lit "PROFILE"]);
   (C_SKILLS, [lit "CORE SKILLS"; lit "SKILLS"; lit "TECHNICAL SKILLS"]);
   (C_EXPERIENCE,
    [lit "EXPERIENCE"; lit "WORK EXPERIENCE"; lit "PROFESSIONAL EXPERIENCE"]);
   (C_PROJECTS, [lit "PROJECTS"; lit "KEY PROJECTS"; lit "NOTABLE PROJECTS"]);
   (C_EDUCATION, [lit "EDUCATION"; lit "ACADEMIC BACKGROUND"])].

(** The loop over [section_keywords.items()] that stops at the first section
    with a keyword in the upper-cased line. *)
Definition found_section (line : str) : option ContentKey :=
  let line_upper := upper line in
  option_map fst
    (find (fun item =>
             existsb (fun keyword => contains keyword line_upper) (snd item))
          content_keywords).

(** [lines]: the trimmed lines of the content that are not blank. *)
Fixpoint content_lines (raw : list str) : list str :=
  match raw with
  | [] => []
  | line :: rest =>
      if nonempty (strip line) then strip line :: content_lines rest
      else content_lines rest
  end.

(** The [while] loop that collects the header lines: at most [budget] lines,
    up to the first line that is a section header. *)
Fixpoint header_lines_of (budget : nat) (lines : list str) : list str :=
  match budget, lines with
  | S budget', line :: rest =>
      if is_some (found_section line) then []
      else line :: header_lines_of budget' rest
  | _, _ => []
  end.

(** One iteration of the loop over [lines[i:]]; the state is
    [(sections, current_section, current_lines)]. *)
Definition content_step
    (st : ContentSections * option ContentKey * list str) (line : str)
    : ContentSections * option ContentKey * list str :=
  let '(sections, current_section, current_lines) := st in
  match found_section line with
  | Some found =>
      let sections :=
        match current_section, current_lines with
        | Some k, _ :: _ => set_content sections k current_lines
        | _, _ => sections
        end in
      (sections, Some found, [line])
  | None =>
      match current_section with
      | Some _ => (sections, current_section, current_lines ++ [line])
      | None =>
          let sections :=
            match sections C_HEADER with
            | None => set_content sections C_HEADER []
            | Some _ => sections
            end in
          let header := match sections C_HEADER with
                        | Some v => v
                        | None => []
                        end in
          (set_content sections C_HEADER (header ++ [line]),
           current_section, current_lines)
      end
  end.

Definition _parse_content_into_sections (content : str) : ContentSections :=
  let lines := content_lines (split newline content) in
  let header_lines := header_lines_of 5 lines in
  let i := length header_lines in
  let sections : ContentSections :=
    match header_lines with
    | [] => fun _ => None
    | _ :: _ => set_content (fun _ => None) C_HEADER header_lines
    end in
  let '(sections, current_section, current_lines) :=
    fold_left content_step (skipn i lines) (sections, None, []) in
  match current_section, current_lines with
  | Some k, _ :: _ => set_content sections k current_lines
  | _, _ => sections
  end.

(** *** Replacing the sections of a template *)

(** [new_sections]: a dictionary with string keys, as the list of its items
    in their order; a key has one item. *)
Definition NewSections := list (str * list str).

(** [new_sections[k]], [None] when the key is absent. *)
Definition lookup (new_sections : NewSections) (k : str)
    : option (list str) :=
  option_map snd (find (fun item => str_eqb (fst item) k) new_sections).

(** The dictionary [section_mapping], in the order of its items. *)
Definition section_mapping : list (str * list str) :=
  [(lit "SUMMARY", [lit "PROFESSIONAL SUMMARY"; lit "SUMMARY"]);
   (lit "SKILLS", [lit "TECHNICAL SKILLS"; lit "CORE SKILLS"]);
   (lit "EXPERIENCE", [lit "PROFESSIONAL EXPERIENCE"; lit "EXPERIENCE"]);
   (lit "PROJECTS", [lit "PROJECTS"]);
   (lit "EDUCATION", [lit "EDUCATION"])].

(** The loop over [section_mapping.items()] for one key of [new_sections]:
    the key is a key of the mapping and one of its keywords is in the
    title. *)
Definition key_matches (template_title new_key : str) : bool :=
  existsb (fun item =>
             str_eqb (fst item) new_key &&
             existsb (fun keyword => contains keyword template_title)
                     (snd item))
          section_mapping.

(** The loop over [new_sections.items()] that finds [matched_section]: the
    first item other than HEADER whose key matches.  The item is returned
    with its lines, which are [new_sections[matched_section]]. *)
Definition matched_section_of (template_title : str)
    (new_sections : NewSections) : option (str * list str) :=
  find (fun item =>
          negb (str_eqb (fst item) (lit "HEADER")) &&
          key_matches template_title (fst item))
       new_sections.

(** The header part of [_replace_sections_preserve_formatting]: when the
    first template section has no header, its first body paragraphs take the
    HEADER lines. *)
Definition replace_header_lines (new_sections : NewSections)
    (template_sections : list DocSection) (st : Store) : Store :=
  match lookup new_sections (lit "HEADER"), template_sections with
  | Some header_lines, first_section :: _ =>
      match first_section with
      | (None, _ :: _) =>
          let body_paras := firstn (length header_lines) (snd first_section) in
          fold_left (fun st item =>
                       _replace_paragraph_text st (fst item) (snd item))
                    (combine body_paras header_lines) st
      | _ => st
      end
  | _, _ => st
  end.

(** One iteration of the loop over [template_sections]. *)
Definition replace_template_section (new_sections : NewSections)
    (anchors : Anchors) (st : Store) (section : DocSection) : Store :=
  match fst section with
  | None => st
  | Some template_header =>
      let template_body := snd section in
      let template_title := upper (strip (text (deref st template_header))) in
      match matched_section_of template_title new_sections with
      | Some (_, new_lines) =>
          let st :=
            match new_lines with
            | line :: _ => _replace_paragraph_text st template_header line
            | [] => st
            end in
          let body_lines :=
            if 1 <? length new_lines then skipn 1 new_lines else [] in
          fst (_replace_section_body st template_body body_lines anchors)
      | None => st
      end
  end.

Definition _replace_sections_preserve_formatting (st : Store)
    (template_sections : list DocSection) (new_sections : NewSections)
    (anchors : Anchors) : Store :=
  fold_left (replace_template_section new_sections anchors) template_sections
            (replace_header_lines new_sections template_sections st).

End WithUnicode.

(** *** Drive folder identifiers *)

(** The character class [[a-zA-Z0-9_-]]. *)
Definition id_char (c : char) : bool :=
  (((97 <=? c) && (c <=? 122)) || ((65 <=? c) && (c <=? 90)) ||
   ((48 <=? c) && (c <=? 57)) || (c =? 95) || (c =? 45))%N.

Fixpoint take_while (f : char -> bool) (s : str) : str :=
  match s with
  | [] => []
  | c :: s' => if f c then c :: take_while f s' else []
  end.

(** [re.match(r'^[a-zA-Z0-9_-]+$', s)]: one character of the class or more,
    up to the end of the string or to a line feed that ends the string. *)
Definition is_folder_id (s : str) : bool :=
  nonempty (take_while id_char s) &&
  match lstrip_by id_char s with
  | [] => true
  | [c] => (c =? newline)%N
  | _ => false
  end.

(** The match of [r'/folders/([a-zA-Z0-9_-]+)'] at the start of [s]: its
    group, if there is a match. *)
Definition folder_at (s : str) : option str :=
  if startswith (lit "/folders/") s
  then let group := take_while id_char (skipn 9 s) in
       if nonempty group then Some group else None
  else None.

(** [re.search(r'/folders/([a-zA-Z0-9_-]+)', s)]: the group of the leftmost
    match. *)
Fixpoint folder_search (s : str) : option str :=
  match folder_at s with
  | Some group => Some group
  | None =>
      match s with
      | [] => None
      | _ :: s' => folder_search s'
      end
  end.

Definition _extract_drive_folder_id (folder_url_or_id : str) : str :=
  if negb (nonempty folder_url_or_id) then []
  else if is_folder_id folder_url_or_id then folder_url_or_id
  else match folder_search folder_url_or_id with
       | Some group => group
       | None => folder_url_or_id
       end.

End Tailor.

(* ================================================================= *)
(** ** resume_txt_converter.py: the document / structured-text codec *)

Module Converter.

(** The keys of [self.section_markers]. *)
Inductive SectionKey := HEADER | EDUCATION | PROJECTS | EXPERIENCE | SKILLS.

Definition SectionKey_eqb (a b : SectionKey) : bool :=
  match a, b with
  | HEADER, HEADER | EDUCATION, EDUCATION | PROJECTS, PROJECTS
  | EXPERIENCE, EXPERIENCE | SKILLS, SKILLS => true
  | _, _ => false
  end.

Definition section_markers (k : SectionKey) : str :=
  match k with
  | HEADER => lit "===HEADER==="
  | EDUCATION => lit "===EDUCATION==="
  | PROJECTS => lit "===PROJECTS==="
  | EXPERIENCE => lit "===PROFESSIONAL EXPERIENCE==="
  | SKILLS => lit "===TECHNICAL SKILLS==="
  end.

(** [self.section_markers.values()] *)
Definition section_markers_values : list str :=
  map section_markers [HEADER; EDUCATION; PROJECTS; EXPERIENCE; SKILLS].

(** [self.format_specs] *)
Module format_specs.
Definition font_name : string := "Times New Roman".
Definition name_size : Z := 16.
Definition contact_size : Z := 11.
Definition section_header_size : Z := 13.
Definition job_title_size : Z := 12.
Definition body_size : Z := 11.
Definition no_spacing : Z := 0.
End format_specs.

(** The line feed character. *)
Definition nl : char := 10%N.

(** The dictionary built by the parser: section key to content lines. *)
Definition Sections := SectionKey -> option (list str).

Definition empty_sections : Sections := fun _ => None.

Definition set_section (sections : Sections) (k : SectionKey) (v : list str)
    : Sections :=
  fun k' => if SectionKey_eqb k' k then Some v else sections k'.

(** [sections.get(k, [])] *)
Definition get_section (sections : Sections) (k : SectionKey) : list str :=
  match sections k with Some v => v | None => [] end.

Section WithUnicode.
Context {U : Unicode}.

(** *** Encoding *)

Definition section_keywords : list str :=
  [lit "EDUCATION"; lit "PROFESSIONAL EXPERIENCE"; lit "EXPERIENCE";
   lit "TECHNICAL SKILLS"; lit "SKILLS"; lit "CORE SKILLS"; lit "SUMMARY";
   lit "PROJECTS"].

Definition _is_section_header (text : str) : bool :=
  let text_upper := strip (upper text) in
  existsb (fun keyword => contains keyword text_upper) section_keywords.

Definition _map_to_section_key (header_text : str) : option SectionKey :=
  let header_upper := upper header_text in
  if contains (lit "EDUCATION") header_upper then Some EDUCATION
  else if contains (lit "PROJECTS") header_upper then Some PROJECTS
  else if contains (lit "EXPERIENCE") header_upper then Some EXPERIENCE
  else if contains (lit "SKILL") header_upper ||
          contains (lit "TECHNICAL") header_upper then Some SKILLS
  else None.

(** One iteration of the loop of [docx_to_structured_txt]; the state is
    [(structured_lines, current_section)]. *)
Definition encode_step (st : list str * option SectionKey) (para : Paragraph)
    : list str * option SectionKey :=
  let '(structured_lines, current_section) := st in
  let text := strip (text para) in
  if negb (nonempty text) then st
  else if _is_section_header text then
    match _map_to_section_key text with
    | Some section_key =>
        (structured_lines ++ [nl :: section_markers section_key] ++ [text],
         Some section_key)
    | None => (structured_lines ++ [text], current_section)
    end
  else
    let '(structured_lines, current_section) :=
      match current_section with
      | None =>
          if negb (existsb (fun marker => contains marker (join [nl] structured_lines))
                           section_markers_values)
          then (section_markers HEADER :: structured_lines, Some HEADER)
          else (structured_lines, current_section)
      | Some _ => (structured_lines, current_section)
      end in
    (structured_lines ++ [text], current_section).

Definition docx_to_structured_txt (doc : Document) : str :=
  let '(structured_lines, _) := fold_left encode_step doc ([], None) in
  join [nl] structured_lines.

(** *** Decoding: cleaning and parsing the text *)

Definition instruction_headings : list str :=
  [lit "**FORMATTING SPECIFICATIONS:**"; lit "**CONTENT REQUIREMENTS:**";
   lit "**WHAT NEVER CHANGES:**"; lit "**Instructions:**";
   lit "**Output Format:**"].

(** One iteration of the loop of [_clean_structured_txt]; the state is
    [(cleaned_lines, skip_formatting_section)]. *)
Definition clean_step (st : list str * bool) (line : str) : list str * bool :=
  let '(cleaned_lines, skip_formatting_section) := st in
  let line := strip line in
  if existsb (fun keyword => contains keyword line) instruction_headings
  then (cleaned_lines, true)
  else if skip_formatting_section then
    if startswith (lit "===") line ||
       (nonempty line && negb (startswith (lit "-") line) &&
        negb (startswith (lit "**") line) && negb (startswith (lit "*") line) &&
        negb (startswith (lit "1.") line) && negb (startswith (lit "2.") line) &&
        negb (startswith (lit "3.") line) && negb (startswith (lit "4.") line) &&
        negb (startswith (lit "5.") line))
    then (cleaned_lines ++ [line], false)
    else (cleaned_lines, true)
  else (cleaned_lines ++ [line], false).

Definition _clean_structured_txt (structured_txt : str) : str :=
  let lines := split nl structured_txt in
  let '(cleaned_lines, _) := fold_left clean_step lines ([], false) in
  join [nl] cleaned_lines.

(** [_save_and_start_section]: stores the lines read so far under the current
    section, when there are any, and returns the section to start. *)
Definition _save_and_start_section (sections : Sections)
    (current_section : option SectionKey) (current_lines : list str)
    (new_section : SectionKey) : Sections * option SectionKey :=
  match current_section, current_lines with
  | Some k, _ :: _ => (set_section sections k current_lines, Some new_section)
  | _, _ => (sections, Some new_section)
  end.

(** One iteration of the loop of [_parse_ai_structured_txt]; the state is
    [(sections, current_section, current_lines)]. *)
Definition parse_step (st : Sections * option SectionKey * list str)
    (line : str) : Sections * option SectionKey * list str :=
  let '(sections, current_section, current_lines) := st in
  let line := strip line in
  if negb (nonempty line) then st
  else
    let start new_section :=
      let '(sections, current_section) :=
        _save_and_start_section sections current_section current_lines
                                new_section in
      (sections, current_section, []) in
    if contains (lit "===HEADER===") line then start HEADER
    else if contains (lit "===EDUCATION===") line then start EDUCATION
    else if contains (lit "===PROJECTS===") line then start PROJECTS
    else if contains (lit "===PROFESSIONAL EXPERIENCE===") line ||
            contains (lit "===EXPERIENCE===") line then start EXPERIENCE
    else if contains (lit "===TECHNICAL SKILLS===") line ||
            contains (lit "===SKILLS===") line then start SKILLS
    else
      match current_section with
      | Some _ => (sections, current_section, current_lines ++ [line])
      | None =>
          let sections :=
            match sections HEADER with
            | None => set_section sections HEADER []
            | Some _ => sections
            end in
          (set_section sections HEADER (get_section sections HEADER ++ [line]),
           current_section, current_lines)
      end.

Definition _parse_ai_structured_txt (structured_txt : str) : Sections :=
  let '(sections, current_section, current_lines) :=
    fold_left parse_step (split nl structured_txt) (empty_sections, None, []) in
  match current_section, current_lines with
  | Some k, _ :: _ => set_section sections k current_lines
  | _, _ => sections
  end.

(** *** Decoding: building the document *)

(** [doc.add_paragraph()]: a paragraph without properties and without runs,
    appended at the end of the document. *)
Definition add_paragraph (doc : Document) : Paragraph :=
  mkParagraph (length doc) None None None None None [].

(** [para.alignment = a] *)
Definition set_alignment (a : Alignment) (p : Paragraph) : Paragraph :=
  mkParagraph (ident p) (Some a) (space_before p) (space_after p)
              (left_indent p) (numPr p) (runs p).

(** [para.paragraph_format.space_before = Pt(v)] and [space_after = Pt(v)] *)
Definition set_spacing (v : Z) (p : Paragraph) : Paragraph :=
  mkParagraph (ident p) (alignment p) (Some v) (Some v)
              (left_indent p) (numPr p) (runs p).

(** [para.add_run(r)] *)
Definition add_run (r : Run) (p : Paragraph) : Paragraph :=
  mkParagraph (ident p) (alignment p) (space_before p) (space_after p)
              (left_indent p) (numPr p) (runs p ++ [r]).

(** A run in the font of [format_specs], with its size and weight set. *)
Definition sized_run (t : str) (size : Z) (is_bold : bool) : Run :=
  mkRun t (Some format_specs.font_name) (Some size) (Some is_bold) None None.

(** The same with [run.underline = True]. *)
Definition underlined_run (t : str) (size : Z) (is_bold : bool) : Run :=
  mkRun t (Some format_specs.font_name) (Some size) (Some is_bold) None
        (Some true).

(** [re.search(r'\d{3}[-\s]?\d{3}[-\s]?\d{4}', line)] *)
Fixpoint digits (n : nat) (k : str -> bool) (s : str) : bool :=
  match n with
  | O => k s
  | S n' =>
      match s with
      | c :: s' => isdecimal c && digits n' k s'
      | [] => false
      end
  end.

Definition optional_separator (k : str -> bool) (s : str) : bool :=
  match s with
  | c :: s' => (((c =? ch "-")%N || isspace c) && k s') || k s
  | [] => k s
  end.

Definition phone_at (s : str) : bool :=
  digits 3 (optional_separator
              (digits 3 (optional_separator (digits 4 (fun _ => true))))) s.

Fixpoint phone_search (s : str) : bool :=
  phone_at s || match s with [] => false | _ :: s' => phone_search s' end.

Definition _is_contact_info (line : str) : bool :=
  let line_lower := lower line in
  contains (lit "@") line ||
  contains (lit "linkedin") line_lower ||
  contains (lit "http") line_lower ||
  phone_search line ||
  contains (lit "|") line.

(** The words of the name, up to the first word that looks like contact
    data. *)
Fixpoint name_words_of (words : list str) : list str :=
  match words with
  | [] => []
  | word :: rest =>
      if negb (existsb (fun c => contains c word)
                       [lit "@"; lit "|"; lit "http"; lit ".com"; lit "832";
                        lit "713"])
      then word :: name_words_of rest
      else []
  end.

(** [w[0].upper() + w[1:].lower() if w else ""] *)
Definition capitalize_word (w : str) : str :=
  if nonempty w then upper (firstn 1 w) ++ lower (skipn 1 w) else [].

Definition _format_name_correctly (name_line : str) : str :=
  let words := split_ws (strip name_line) in
  let name_words := name_words_of words in
  if 2 <=? length name_words then
    let first_name := nth 0 name_words [] in
    let last_name := last name_words [] in
    capitalize_word first_name ++ lit " " ++ capitalize_word last_name
  else strip name_line.

(** The loop of [_add_header_section]; [i] is the index that [enumerate]
    gives.  A line after the first that is not contact data leaves behind the
    centred paragraph that was already added for it, without run and without
    spacing. *)
Fixpoint header_loop (i : nat) (header_lines : list str) (doc : Document)
    : Document :=
  match header_lines with
  | [] => doc
  | line :: rest =>
      if negb (nonempty (strip line)) then header_loop (S i) rest doc
      else
        let para := set_alignment CENTER (add_paragraph doc) in
        if i =? 0 then
          let para :=
            add_run (sized_run (_format_name_correctly line)
                               format_specs.name_size true) para in
          header_loop (S i) rest
            (doc ++ [set_spacing format_specs.no_spacing para])
        else if _is_contact_info line then
          let para :=
            add_run (sized_run (strip line) format_specs.contact_size false)
                    para in
          header_loop (S i) rest
            (doc ++ [set_spacing format_specs.no_spacing para])
        else header_loop (S i) rest (doc ++ [para])
  end.

Definition _add_header_section (doc : Document) (header_lines : list str)
    : Document :=
  header_loop 0 header_lines doc.

(** The header paragraph that every section starts with: left aligned, one
    bold underlined run. *)
Definition section_header_paragraph (doc : Document) (title : str)
    : Paragraph :=
  set_spacing format_specs.no_spacing
    (add_run (underlined_run title format_specs.section_header_size true)
       (set_alignment LEFT (add_paragraph doc))).

(** The blank paragraph added before a section header. *)
Definition blank_paragraph (doc : Document) : Paragraph :=
  set_spacing format_specs.no_spacing (add_paragraph doc).

(** A left aligned paragraph with one run. *)
Definition line_paragraph (doc : Document) (r : Run) : Paragraph :=
  set_spacing format_specs.no_spacing
    (add_run r (set_alignment LEFT (add_paragraph doc))).

Fixpoint education_loop (education_lines : list str) (doc : Document)
    : Document :=
  match education_lines with
  | [] => doc
  | line :: rest =>
      if nonempty (strip line)
      then education_loop rest
             (doc ++ [line_paragraph doc
                        (sized_run (strip line) format_specs.job_title_size
                                   false)])
      else education_loop rest doc
  end.

Definition _add_education_section (doc : Document)
    (education_lines : list str) : Document :=
  match education_lines with
  | [] => doc
  | _ :: _ =>
      let doc := doc ++ [section_header_paragraph doc (lit "EDUCATION")] in
      education_loop education_lines doc
  end.

(** The text of a bullet line: [content] gets the bullet glyph in front when
    it does not start with one, and a full stop at the end when it does not
    end with ".", "?" or "!". *)
Definition bullet_content (line : str) : str :=
  let content := strip line in
  let content :=
    if negb (startswith [bullet] content)
    then bullet :: ch " " :: content else content in
  if negb (endswith (lit ".") content) && negb (endswith (lit "?") content) &&
     negb (endswith (lit "!") content)
  then content ++ lit "." else content.

(** The paragraph of one content line of PROJECTS or of PROFESSIONAL
    EXPERIENCE: the bodies of the two loops are the same text. *)
Definition entry_paragraph (doc : Document) (line : str) : Paragraph :=
  if contains (lit "|") line
  then line_paragraph doc
         (sized_run (strip line) format_specs.job_title_size true)
  else line_paragraph doc
         (sized_run (bullet_content line) format_specs.body_size false).

Fixpoint entries_loop (lines : list str) (doc : Document) : Document :=
  match lines with
  | [] => doc
  | line :: rest =>
      if negb (nonempty (strip line)) then entries_loop rest doc
      else entries_loop rest (doc ++ [entry_paragraph doc line])
  end.

Definition _add_projects_section (doc : Document) (projects_lines : list str)
    : Document :=
  match projects_lines with
  | [] => doc
  | _ :: _ =>
      let doc := doc ++ [blank_paragraph doc] in
      let doc := doc ++ [section_header_paragraph doc (lit "PROJECTS")] in
      entries_loop projects_lines doc
  end.

Definition _add_experience_section (doc : Document)
    (experience_lines : list str) : Document :=
  match experience_lines with
  | [] => doc
  | _ :: _ =>
      let doc := doc ++ [blank_paragraph doc] in
      let doc :=
        doc ++ [section_header_paragraph doc (lit "PROFESSIONAL EXPERIENCE")] in
      entries_loop experience_lines doc
  end.

Definition instruction_words : list str :=
  [lit "FORMATTING"; lit "CONTENT REQUIREMENTS"; lit "WHAT NEVER CHANGES";
   lit "Instructions:"; lit "Action-Oriented:"; lit "STAR Flow:";
   lit "Quantifiable Results:"; lit "Concise & Specific:";
   lit "ATS Alignment:"; lit "Output Format:"].

(** [s.replace('**', '').replace('*', '').strip()] *)
Definition unstar (s : str) : str :=
  strip (replace (lit "*") [] (replace (lit "**") [] s)).

Definition skills_paragraph (doc : Document) (line : str) : Paragraph :=
  let para := set_alignment LEFT (add_paragraph doc) in
  let para :=
    if contains (lit ":") line then
      let parts := split1 (ch ":") line in
      let category_part := strip (nth 0 parts []) in
      let skills_part :=
        if 1 <? length parts then strip (nth 1 parts []) else [] in
      let category := unstar category_part in
      let skills := unstar skills_part in
      let para :=
        add_run (sized_run (category ++ lit ":") format_specs.body_size true)
                para in
      if nonempty skills
      then add_run (sized_run (ch " " :: skills) format_specs.body_size false)
                   para
      else para
    else
      add_run (sized_run (unstar line) format_specs.body_size false) para in
  set_spacing format_specs.no_spacing para.

Fixpoint skills_loop (skills_lines : list str) (doc : Document) : Document :=
  match skills_lines with
  | [] => doc
  | line :: rest =>
      if negb (nonempty (strip line)) then skills_loop rest doc
      else if existsb (fun keyword => contains keyword line) instruction_words
      then skills_loop rest doc
      else skills_loop rest (doc ++ [skills_paragraph doc line])
  end.

Definition _add_skills_section (doc : Document) (skills_lines : list str)
    : Document :=
  match skills_lines with
  | [] => doc
  | _ :: _ =>
      let doc := doc ++ [blank_paragraph doc] in
      let doc :=
        doc ++ [section_header_paragraph doc (lit "TECHNICAL SKILLS")] in
      skills_loop skills_lines doc
  end.


End WithUnicode.
End Converter.

(* ================================================================= *)
(** ** tailor_resume_strict.py: the section rewriter *)

Module Strict.

(** How a call ends: it returns, or it raises [RuntimeError]. *)
Inductive Outcome := Returned | Raised (message : string).

(** Modelled from the spec: the helpers [has_numbering], [delete_paragraph],
    [clone_paragraph_after] and [set_paragraph_text_preserve_runs] are called
    by [rewrite_section_from_lines] but defined nowhere in the source.
    Spec 4.2(c): a bullet paragraph carries list/numbering formatting. *)
Definition has_numbering (p : Paragraph) : bool := is_some (numPr p).

(** Modelled from the spec: 4.5, the original body paragraphs of the section
    are removed from the document. *)
Definition delete_paragraph (st : Store) (p : Paragraph) : Store :=
  remove st p.

(** Modelled from the spec: 4.5, the cloning operation copies the full
    structural node of the paragraph it is given (paragraph properties, run
    properties, numbering properties), and the copy is inserted immediately
    after that paragraph.  The source calls the helper with one argument. *)
Definition clone_paragraph_after (st : Store) (p : Paragraph)
    : Store * Paragraph :=
  let '(st, new_p) := deepcopy st p in
  (addnext st p new_p, new_p).

(** Modelled from the spec: 4.5, the text of the first run is overwritten and
    the text of the other runs is cleared, their formatting left intact.  The
    second component is the paragraph as it is after the change. *)
Definition set_paragraph_text_preserve_runs (st : Store) (p : Paragraph)
    (line : str) : Store * Paragraph :=
  (update st p (replace_text line), replace_text line (deref st p)).

Section WithUnicode.
Context {U : Unicode}.

(** The tabulator. *)
Definition tab : char := 9%N.

(** The character class of [r"^[•\-\*\t\s]+"]. *)
Definition leading_glyph (c : char) : bool :=
  (c =? bullet)%N || (c =? ch "-")%N || (c =? ch "*")%N || (c =? tab)%N ||
  isspace c.

Definition _sanitize (s : str) : str :=
  let s := strip s in
  let s := lstrip_by leading_glyph s in
  strip (collapse_ws s).

(** The loop that builds [clean_lines]. *)
Fixpoint clean_lines_of (lines : list str) : list str :=
  match lines with
  | [] => []
  | ln :: rest =>
      let t := _sanitize ln in
      if nonempty t then t :: clean_lines_of rest else clean_lines_of rest
  end.

(** [re.search(r"^\d+[\.\)]\s*", line)]: one digit or more, then "." or ")". *)
Fixpoint after_digits (s : str) : bool :=
  match s with
  | [] => false
  | c :: s' =>
      (isdecimal c && after_digits s') ||
      (c =? ch ".")%N || (c =? ch ")")%N
  end.

Definition numbered (line : str) : bool :=
  match line with
  | c :: s' => isdecimal c && after_digits s'
  | [] => false
  end.

(** [(" | " in line) and not re.search(r"^\d+[\.\)]\s*", line)] *)
Definition looks_like_title (line : str) : bool :=
  contains (lit " | ") line && negb (numbered line).

(** [a or d], for a reference [a] that may be [None]. *)
Definition or_default (a : option Paragraph) (d : Paragraph) : Paragraph :=
  match a with Some p => p | None => d end.

(** The loop of the uniform rendering: each new paragraph is a clone of
    [last], inserted after it, and then takes the text of its line. *)
Fixpoint insert_lines (clean_lines : list str) (last : Paragraph)
    (st : Store) : Store * list Paragraph :=
  match clean_lines with
  | [] => (st, [])
  | line :: rest =>
      let '(st, new_p) := clone_paragraph_after st last in
      let '(st, new_p) := set_paragraph_text_preserve_runs st new_p line in
      let '(st, new_pars) := insert_lines rest new_p st in
      (st, new_p :: new_pars)
  end.

(** The loop of the mixed rendering.  The source computes [looks_like_title]
    and [anchor] for each line and then passes [last] alone to
    [clone_paragraph_after], as the uniform loop does. *)
Fixpoint insert_lines_mixed (clean_lines : list str) (last : Paragraph)
    (bullet_anchor body_anchor : option Paragraph) (default_anchor : Paragraph)
    (st : Store) : Store * list Paragraph :=
  match clean_lines with
  | [] => (st, [])
  | line :: rest =>
      let looks_like_title := looks_like_title line in
      let anchor :=
        if looks_like_title then or_default body_anchor default_anchor
        else or_default bullet_anchor default_anchor in
      let '(st, new_p) := clone_paragraph_after st last in
      let '(st, new_p) := set_paragraph_text_preserve_runs st new_p line in
      let '(st, new_pars) :=
        insert_lines_mixed rest new_p bullet_anchor body_anchor default_anchor
                           st in
      (st, new_p :: new_pars)
  end.

Definition drift_message : string :=
  "Formatting drift detected: cloned paragraph does not match anchor formatting.".

Definition drift_message_mixed : string :=
  "Formatting drift detected in mixed mode: cloned paragraph does not match target anchor.".

(** The verification loop of the uniform rendering. *)
Definition verify (new_pars : list Paragraph) (sig_default : Signature)
    : Outcome :=
  if existsb (fun np => negb (sig_eqb (paragraph_xml_signature np) sig_default))
             new_pars
  then Raised drift_message else Returned.

(** The verification loop of the mixed rendering: the expected signature is
    chosen from the text of the new paragraph. *)
Definition verify_mixed (new_pars : list Paragraph)
    (sig_bullet sig_body : Signature) : Outcome :=
  if existsb (fun np =>
                let sig_np := paragraph_xml_signature np in
                let txt := text np in
                let is_title := looks_like_title txt in
                let target_sig := if is_title then sig_body else sig_bullet in
                negb (sig_eqb sig_np target_sig))
             new_pars
  then Raised drift_message_mixed else Returned.

Definition had_bullets_in (old_body : list Paragraph) : bool :=
  existsb (fun p => has_numbering p ||
                    startswith [bullet] (strip (text p)) ||
                    startswith (lit "- ") (strip (text p)))
          old_body.

(** [a or b or c], for references of which the last one is not [None]. *)
Definition first_of (a b : option Paragraph) (c : Paragraph) : Paragraph :=
  or_default a (or_default b c).

Definition default_anchor_of (header : Paragraph) (had_bullets : bool)
    (bullet_anchor body_anchor : option Paragraph) : Paragraph :=
  match bullet_anchor with
  | Some b =>
      if had_bullets then b else first_of body_anchor bullet_anchor header
  | None => first_of body_anchor bullet_anchor header
  end.

(** [rewrite_section_from_lines].  The arguments are references; what the
    function reads through them (text, numbering, signature) is the state of
    their nodes when the function is entered, which deleting other nodes does
    not change. *)
Definition rewrite_section_from_lines (st : Store) (header : Paragraph)
    (old_body : list Paragraph) (lines : list str)
    (bullet_anchor body_anchor : option Paragraph)
    (strict_verify mixed_mode : bool) : Store * Outcome :=
  let now := deref st in
  let clean_lines := clean_lines_of lines in
  let had_bullets := had_bullets_in (map now old_body) in
  let default_anchor :=
    default_anchor_of header had_bullets bullet_anchor body_anchor in
  let sig_default := paragraph_xml_signature (now default_anchor) in
  let st := fold_left delete_paragraph old_body st in
  if negb mixed_mode then
    let '(st, new_pars) := insert_lines clean_lines header st in
    if strict_verify then (st, verify new_pars sig_default)
    else (st, Returned)
  else
    let sig_bullet :=
      paragraph_xml_signature (now (or_default bullet_anchor default_anchor)) in
    let sig_body :=
      paragraph_xml_signature (now (or_default body_anchor default_anchor)) in
    let '(st, new_pars) :=
      insert_lines_mixed clean_lines header bullet_anchor body_anchor
                         default_anchor st in
    if strict_verify then (st, verify_mixed new_pars sig_bullet sig_body)
    else (st, Returned).

(** The sections that [apply_content] rewrites.  For each it holds the header
    and the body located in the document, and [None] stands for a key that
    is not in [content]. *)
Record SectionJob := mkJob {
  hdr : Paragraph;
  body : list Paragraph;
  new_lines : list str
}.


(** One [if key in content: rewrite_section_from_lines(...)] of
    [apply_content]: an exception raised by an earlier call has ended the
    function, so that nothing more is done. *)
Definition rewrite_if_present (job : option SectionJob)
    (bullet_anchor body_anchor : option Paragraph)
    (strict_verify mixed_mode : bool) (s : Store * Outcome) : Store * Outcome :=
  match s, job with
  | (st, Returned), Some j =>
      rewrite_section_from_lines st (hdr j) (body j) (new_lines j)
                                 bullet_anchor body_anchor strict_verify
                                 mixed_mode
  | _, _ => s
  end.



End WithUnicode.
End Strict.

(* ================================================================= *)
(** ** Sample documents *)

Module Samples.

(** A paragraph with one run, which sets font and size only. *)
Definition plain (i : nat) (t : string) : Paragraph :=
  mkParagraph i None None None None None
    [mkRun (lit t) (Some "Calibri"%string) (Some 11%Z) None None None].

(** A centred heading: one bold run. *)
Definition heading (i : nat) (t : string) : Paragraph :=
  mkParagraph i (Some CENTER) None None None None
    [mkRun (lit t) (Some "Calibri"%string) (Some 14%Z) (Some true) None None].

(** A list paragraph: numbering properties and an indentation. *)
Definition listed (i : nat) (t : string) : Paragraph :=
  mkParagraph i None None None (Some 18%Z) (Some (0, 1))
    [mkRun (lit t) (Some "Calibri"%string) (Some 11%Z) None None None].

(** A paragraph whose text starts with the bullet glyph, without numbering
    properties. *)
Definition glyph_bullet (i : nat) (t : string) : Paragraph :=
  mkParagraph i None None None None None
    [mkRun (bullet :: ch " " :: lit t) (Some "Calibri"%string) (Some 11%Z)
           None None None].

(** A resume that starts with the name of its owner. *)
Definition resume : Document :=
  [plain 0 "Jane Doe"; heading 1 "EDUCATION"; plain 2 "State University"].




(** A master document: a body paragraph, a list paragraph, and a PROJECTS
    section with one paragraph. *)
Definition master : Store :=
  mkStore [plain 0 "Engineer with five years of practice";
           listed 1 "Reduced downtime by 15%";
           heading 2 "PROJECTS";
           plain 3 "Old project | Old place | 2020"] 4.

Definition projects_header : Paragraph := heading 2 "PROJECTS".
Definition projects_body : list Paragraph :=
  [plain 3 "Old project | Old place | 2020"].
Definition body_anchor : Paragraph :=
  plain 0 "Engineer with five years of practice".
Definition bullet_anchor : Paragraph := listed 1 "Reduced downtime by 15%".

(** Replacement lines for PROJECTS: a title row and a detail line. *)
Definition projects_lines : list str :=
  [lit "Digital Twin | University | 2025"; lit "Built the simulation"].


(** A section of two body paragraphs, and one replacement line. *)
Definition skills_store : Store :=
  mkStore [heading 0 "SKILLS"; plain 1 "Python"; plain 2 "SQL"] 3.


(** The structured text of the scenario of the spec: no PROJECTS marker. *)
Definition scenario_text : str :=
  lit "===HEADER===" ++ [10%N] ++ lit "Jane Doe" ++ [10%N] ++
  lit "jane@example.com | 555-0100" ++ [10%N] ++
  lit "===EDUCATION===" ++ [10%N] ++
  lit "State University | B.S. Engineering | 2020" ++ [10%N] ++
  lit "===TECHNICAL SKILLS===" ++ [10%N] ++
  lit "Data: SQL, Python, Excel".

(** Generated content for the SKILLS section of [skills_store]. *)
Definition skills_content : Tailor.NewSections :=
  [(lit "HEADER", [lit "Jane Doe"]);
   (lit "SKILLS", [lit "SKILLS"; lit "Go"; lit "Rust"])].

(** A document without section header: a name and a contact line, with a
    blank paragraph between them. *)
Definition letterhead : Document :=
  [plain 0 "Jane Doe"; plain 1 "  "; plain 2 "jane@example.com | 555-0100"].

End Samples.

(* ================================================================= *)
(** ** Notions used in the statements *)

Module Notions.
Import Tailor.

Section WithUnicode.
Context {U : Unicode}.

(** The rule of the spec for a section header: the trimmed text is not
    empty, is upper case, and has at most 48 characters. *)
Definition all_caps_rule (text : str) : Prop :=
  strip text <> [] /\ isupper (strip text) = true /\ length (strip text) <= 48.

(** The header paragraphs of a list of sections, in order. *)
Definition headers_of (sections : list DocSection) : list Paragraph :=
  flat_map (fun s => match fst s with Some h => [h] | None => [] end) sections.

Definition opt_list (o : option Paragraph) : list Paragraph :=
  match o with Some h => [h] | None => [] end.

Definition is_header (p : Paragraph) : bool :=
  _is_all_caps_header (strip (text p)).

(** The rule that the encoder applies: the upper-cased, trimmed text
    contains one of the section keywords. *)
Definition keyword_rule (text : str) : Prop :=
  exists keyword,
    In keyword Converter.section_keywords /\
    contains keyword (strip (upper text)) = true.

(** The text ends with ".", "?" or "!". *)
Definition ends_sentence (s : str) : bool :=
  endswith (lit ".") s || endswith (lit "?") s || endswith (lit "!") s.

(** The line is not blank. *)
Definition not_blank (line : str) : bool := nonempty (strip line).



(** Every whitespace character of the text is a space, and no whitespace
    character follows it. *)
Fixpoint single_spaced (s : str) : bool :=
  match s with
  | [] => true
  | c :: s' =>
      (if isspace c
       then (c =? ch " ")%N &&
            match s' with d :: _ => negb (isspace d) | [] => true end
       else true) && single_spaced s'
  end.



(** The paragraphs of a list of sections, headers and bodies, in order. *)
Definition flatten_sections (sections : list DocSection) : list Paragraph :=
  flat_map (fun s => opt_list (fst s) ++ snd s) sections.

(** The document from its first header paragraph on. *)
Fixpoint drop_leading (doc : Document) : list Paragraph :=
  match doc with
  | [] => []
  | p :: rest => if is_header p then doc else drop_leading rest
  end.

(** The tests of [_build_style_anchors] for the roles Contact, Bullet and
    Body, on the trimmed text of the paragraph. *)
Definition contact_test (p : Paragraph) : bool :=
  let t := strip (text p) in
  contains (lit "@") t || contains (lit "phone") (lower t) ||
  contains (lit "linkedin") (lower t).

Definition bullet_test (p : Paragraph) : bool :=
  let t := strip (text p) in
  _has_numbering p || startswith [bullet] t || startswith (lit "- ") t.

Definition body_test (p : Paragraph) : bool :=
  let t := strip (text p) in
  nonempty t && negb (_is_all_caps_header t) && negb (_has_numbering p).

(** The line contains none of the instruction headings that cleaning looks
    for. *)
Definition no_heading (line : str) : bool :=
  negb (existsb (fun keyword => contains keyword line)
                Converter.instruction_headings).

(** The skills line is rendered: it is not blank and contains none of the
    instruction words. *)
Definition kept_skill_line (line : str) : bool :=
  not_blank line &&
  negb (existsb (fun keyword => contains keyword line)
                Converter.instruction_words).

(** The lines in front of the first line that [found_section] takes for a
    section header. *)
Fixpoint before_first_section (lines : list str) : list str :=
  match lines with
  | [] => []
  | line :: rest =>
      if is_some (found_section line) then []
      else line :: before_first_section rest
  end.

(** The lines of a section of generated content: the first is a header line
    of the section [k], the others are no header lines. *)
Definition section_block (k : ContentKey) (l : list str) : Prop :=
  match l with
  | x :: rest =>
      found_section x = Some k /\
      Forall (fun y => found_section y = None) rest
  | [] => False
  end.

(** No keyword of [section_mapping] is in the title of the header [h]. *)
Definition unmapped (st : Store) (h : Paragraph) : bool :=
  negb (existsb (fun item =>
                   existsb (fun keyword =>
                              contains keyword
                                (upper (strip (text (deref st h)))))
                           (snd item))
                section_mapping).

(** A section as [_locate_sections] is meant to return it: its header, if it
    has one, passes the header test, and no paragraph of its body does. *)
Definition section_ok (s : DocSection) : Prop :=
  match fst s with Some h => is_header h = true | None => True end /\
  Forall (fun p => is_header p = false) (snd s).

(** The number of paragraphs of a section of the decoded document: none
    for a section without lines, else the paragraphs in front of the content
    and one for each line that is rendered. *)
Definition section_size (overhead : nat) (rendered lines : list str) : nat :=
  match lines with
  | [] => 0
  | _ :: _ => overhead + length rendered
  end.

(** The trimmed line is not empty. *)
Definition trimmed_line (raw : list str) (x : str) : Prop :=
  x <> [] /\ In x (map strip raw).

End WithUnicode.







(** The node with the identity [i], if the document has one. *)
Definition node (st : Store) (i : nat) : option Paragraph :=
  find (fun q => i =? ident q) (paragraphs st).






End Notions.

(* ================================================================= *)
(** ** Section location and anchor discovery *)

Unset Implicit Arguments.

Module TailorFacts.
Import Tailor Notions.

Section WithUnicode.
Context {U : Unicode}.

Lemma is_all_caps_header_rule (text : str) :
  _is_all_caps_header text = true <-> all_caps_rule text.
Proof.
  unfold _is_all_caps_header, all_caps_rule.
  rewrite !andb_true_iff, Nat.ltb_lt, Nat.leb_le.
  destruct (strip text) as [|c t]; simpl; split.
  - intros [[_ H] _]. lia.
  - intros [H _]. congruence.
  - intros [[H _] H']. repeat split; [discriminate | exact H | exact H'].
  - intros (_ & H & H'). repeat split; [exact H | lia | exact H'].
Qed.

Lemma headers_of_app (a b : list DocSection) :
  headers_of (a ++ b) = headers_of a ++ headers_of b.
Proof. unfold headers_of. apply flat_map_app. Qed.

Lemma locate_loop_headers (ps : list Paragraph) :
  forall sections current_header current_body,
    let '(ss, h, _) := locate_loop ps sections current_header current_body in
    headers_of ss ++ opt_list h =
    headers_of sections ++ opt_list current_header ++ filter is_header ps.
Proof.
  induction ps as [|p ps IH]; intros sections current_header current_body.
  - simpl. now rewrite app_nil_r.
  - cbn [locate_loop filter]. unfold is_header at 1.
    destruct (_is_all_caps_header (strip (text p))).
    + specialize (IH (match current_header with
                      | Some h => sections ++ [(Some h, current_body)]
                      | None => sections
                      end) (Some p) []).
      destruct (locate_loop ps _ (Some p) []) as [[ss h] b].
      rewrite IH. destruct current_header; simpl.
      * rewrite headers_of_app. simpl. now rewrite <- app_assoc.
      * reflexivity.
    + assert (E : match current_header with
                  | Some _ => locate_loop ps sections current_header (current_body ++ [p])
                  | None => locate_loop ps sections current_header (current_body ++ [p])
                  end = locate_loop ps sections current_header (current_body ++ [p]))
        by now destruct current_header.
      rewrite E. apply IH.
Qed.

(** The headers of the sections that [_locate_sections] returns are the
    paragraphs of the document that satisfy [_is_all_caps_header], in
    document order. *)
Lemma locate_sections_headers (doc : Document) :
  headers_of (_locate_sections doc) = filter is_header doc.
Proof.
  unfold _locate_sections.
  pose proof (locate_loop_headers doc [] None []) as H.
  destruct (locate_loop doc [] None []) as [[ss h] b].
  simpl in H. rewrite <- H.
  destruct h as [h|].
  - rewrite headers_of_app. reflexivity.
  - destruct b; simpl; rewrite ?headers_of_app; simpl; now rewrite app_nil_r.
Qed.

Lemma In_headers_of (p : Paragraph) (sections : list DocSection) :
  In p (headers_of sections) <-> In (Some p) (map fst sections).
Proof.
  unfold headers_of. rewrite in_flat_map, in_map_iff. split.
  - intros ([h b] & Hin & Hp). simpl in Hp. destruct h as [h|]; simpl in Hp.
    + destruct Hp as [-> | []]. now exists (Some p, b).
    + destruct Hp.
  - intros ([h b] & Hfst & Hin). simpl in Hfst. subst h.
    exists (Some p, b). split; [exact Hin | now left].
Qed.

(** Paragraphs in front of the first header have no effect on the result:
    when a header follows them, they are in no section. *)
Lemma locate_loop_leading (lead : list Paragraph) :
  forall body,
    forallb (fun p => negb (is_header p)) lead = true ->
    locate_loop lead [] None body = ([], None, body ++ lead).
Proof.
  induction lead as [|p lead IH]; intros body H.
  - simpl. now rewrite app_nil_r.
  - simpl in H. apply andb_true_iff in H as [Hp Hl].
    cbn [locate_loop]. unfold is_header in Hp.
    apply negb_true_iff in Hp. rewrite Hp.
    rewrite (IH _ Hl). now rewrite <- app_assoc.
Qed.

Lemma locate_loop_app (a b : list Paragraph) :
  forall sections h body,
    locate_loop (a ++ b) sections h body =
    let '(ss, h', body') := locate_loop a sections h body in
    locate_loop b ss h' body'.
Proof.
  induction a as [|p a IH]; intros sections h body.
  - reflexivity.
  - cbn [app locate_loop].
    destruct (_is_all_caps_header (strip (text p))).
    + apply IH.
    + destruct h; apply IH.
Qed.

Lemma leading_paragraphs_ignored (lead rest : list Paragraph) (h : Paragraph) :
  forallb (fun p => negb (is_header p)) lead = true ->
  is_header h = true ->
  _locate_sections (lead ++ h :: rest) = _locate_sections (h :: rest).
Proof.
  intros Hlead Hh. unfold _locate_sections.
  rewrite locate_loop_app, (locate_loop_leading _ [] Hlead).
  cbn [locate_loop]. unfold is_header in Hh. rewrite Hh. reflexivity.
Qed.

(** A role that is bound stays bound to the same paragraph. *)
Lemma anchors_step_body_kept (q p : Paragraph) (anchors : Anchors) :
  Body anchors = Some p -> Body (anchors_step q anchors) = Some p.
Proof.
  intros H. unfold anchors_step.
  repeat match goal with
         | |- context [if ?c then _ else _] => destruct c eqn:?
         end; cbn [Body is_some negb andb] in *; try exact H;
    rewrite ?H in *; cbn [is_some negb andb] in *; congruence.
Qed.

Lemma anchors_loop_body_kept (ps : list Paragraph) :
  forall anchors p,
    Body anchors = Some p -> Body (anchors_loop ps anchors) = Some p.
Proof.
  induction ps as [|q ps IH]; intros anchors p H; [exact H|].
  cbn [anchors_loop]. cbv zeta.
  pose proof (anchors_step_body_kept q p anchors H) as H'.
  destruct (all_found (anchors_step q anchors)); [exact H' | now apply IH].
Qed.

(** A first paragraph whose text starts with the bullet glyph, without
    numbering properties, is bound to the Body role. *)
Lemma glyph_bullet_bound_as_body (p : Paragraph) (rest : list Paragraph) :
  startswith [bullet] (strip (text p)) = true ->
  _is_all_caps_header (strip (text p)) = false ->
  _has_numbering p = false ->
  Body (_build_style_anchors (p :: rest)) = Some p.
Proof.
  intros Hs Hh Hn. unfold _build_style_anchors. cbn [anchors_loop]. cbv zeta.
  assert (Hb : Body (anchors_step p (mkAnchors None None None None)) = Some p).
  { unfold anchors_step. rewrite Hh, Hn, Hs.
    destruct (strip (text p)) as [|c t] eqn:Et; [discriminate Hs|].
    cbn [SectionHeader Contact Bullet Body is_some negb andb orb nonempty].
    now destruct (_ || _). }
  destruct (all_found _); [exact Hb | now apply anchors_loop_body_kept].
Qed.

End WithUnicode.

(** C4 (the code at the failing input): the document [Jane Doe; EDUCATION;
    State University] has one paragraph in front of its first ALL-CAPS
    header.  [_locate_sections] returns the EDUCATION section only: the
    leading paragraph is in no section, and no headerless section is at the
    front of the result. *)
Theorem C4_leading_section_lost :
  _locate_sections Samples.resume =
    [(Some (Samples.heading 1 "EDUCATION"),
      [Samples.plain 2 "State University"])] /\
  _is_all_caps_header (text (Samples.plain 0 "Jane Doe")) = false /\
  ~ In None (map fst (_locate_sections Samples.resume)).
Proof.
  split; [reflexivity|]. split; [reflexivity|].
  simpl. intros [H | []]. discriminate H.
Qed.

(** C8 (the code at the failing input): in a document whose only paragraph
    is the text "• Built the pipeline" without numbering properties,
    [_build_style_anchors] binds the Body role to that paragraph, the one it
    also binds to the Bullet role. *)
Theorem C8_body_bound_to_glyph_bullet :
  let p := Samples.glyph_bullet 0 "Built the pipeline" in
  startswith [bullet] (text p) = true /\
  Body (_build_style_anchors [p]) = Some p /\
  Bullet (_build_style_anchors [p]) = Some p.
Proof. repeat split. Qed.

End TailorFacts.

(* ================================================================= *)
(** ** Facts about the string operations *)

Module StringFacts.

Lemma startswith_app (p s : str) : startswith p (p ++ s) = true.
Proof.
  induction p as [|a p IH]; simpl.
  - reflexivity.
  - now rewrite N.eqb_refl.
Qed.

Lemma startswith_prefix (p s : str) :
  startswith p s = true <-> exists r, s = p ++ r.
Proof.
  split.
  - revert s. induction p as [|a p IH]; intros s H.
    + now exists s.
    + destruct s as [|b s]; [discriminate|]. simpl in H.
      apply andb_true_iff in H as [Hab Hp]. apply N.eqb_eq in Hab. subst b.
      destruct (IH _ Hp) as [r ->]. now exists r.
  - intros [r ->]. apply startswith_app.
Qed.

Lemma contains_startswith (sub s : str) :
  startswith sub s = true -> contains sub s = true.
Proof. intros H. destruct s; simpl; now rewrite H. Qed.

Lemma contains_infix (sub s : str) :
  contains sub s = true <-> exists a b, s = a ++ sub ++ b.
Proof.
  split.
  - induction s as [|c s IH]; simpl; intros H.
    + rewrite orb_false_r in H. apply startswith_prefix in H as [r Hr].
      now exists [], r.
    + apply orb_true_iff in H as [H | H].
      * apply startswith_prefix in H as [r Hr]. now exists [], r.
      * destruct (IH H) as (a & b & ->). now exists (c :: a), b.
  - intros (a & b & ->). induction a as [|c a IH].
    + cbn [app]. apply contains_startswith, startswith_app.
    + simpl. rewrite IH. apply orb_true_r.
Qed.

Lemma contains_inside (sub t a b : str) :
  contains sub t = true -> contains sub (a ++ t ++ b) = true.
Proof.
  intros H. apply contains_infix in H as (x & y & ->).
  apply contains_infix. exists (a ++ x), (y ++ b).
  now rewrite <- !app_assoc.
Qed.

Lemma lstrip_by_suffix (f : char -> bool) (s : str) :
  exists a, s = a ++ lstrip_by f s.
Proof.
  induction s as [|c s [a IH]]; simpl.
  - now exists [].
  - destruct (f c).
    + exists (c :: a). simpl. now f_equal.
    + now exists [].
Qed.

Lemma rstrip_by_prefix (f : char -> bool) (s : str) :
  exists b, s = rstrip_by f s ++ b.
Proof.
  unfold rstrip_by. destruct (lstrip_by_suffix f (rev s)) as [a H].
  exists (rev a). rewrite <- rev_app_distr, <- H. now rewrite rev_involutive.
Qed.

(** What [lstrip_by] leaves does not start with a character of the class. *)
Lemma lstrip_by_head (f : char -> bool) (s : str) :
  match lstrip_by f s with
  | c :: _ => f c = false
  | [] => True
  end.
Proof.
  induction s as [|c s IH]; simpl.
  - exact I.
  - destruct (f c) eqn:E; [exact IH | exact E].
Qed.

Lemma lstrip_by_fixed (f : char -> bool) (c : char) (s : str) :
  f c = false -> lstrip_by f (c :: s) = c :: s.
Proof. intros H. simpl. now rewrite H. Qed.

(** The pieces of [split] do not contain the separator, and [split] undoes
    [join]. *)
Lemma split_no_sep (sep : char) (s : str) :
  Forall (fun w => ~ In sep w) (split sep s).
Proof.
  induction s as [|c s IH]; simpl.
  - constructor; [intros [] | constructor].
  - destruct (N.eqb_spec c sep) as [E | E].
    + constructor; [intros [] | exact IH].
    + destruct (split sep s) as [|w ws].
      * constructor; [|constructor]. intros [H | []]. contradiction.
      * inversion IH as [|? ? Hw Hws]; subst. constructor; [|exact Hws].
        intros [H | H]; [contradiction | now apply Hw].
Qed.

Lemma split_nonempty (sep : char) (s : str) : split sep s <> [].
Proof.
  destruct s as [|c s]; simpl; [discriminate|].
  destruct (c =? sep)%N; [discriminate|].
  destruct (split sep s); discriminate.
Qed.

Lemma join_cons (sep x : str) (y : str) (l : list str) :
  join sep (x :: y :: l) = x ++ sep ++ join sep (y :: l).
Proof. reflexivity. Qed.

Lemma join_split (sep : char) (s : str) : join [sep] (split sep s) = s.
Proof.
  induction s as [|c s IH].
  - reflexivity.
  - cbn [split]. destruct (N.eqb_spec c sep) as [E | E].
    + subst c. pose proof (split_nonempty sep s) as Hne.
      destruct (split sep s) as [|w ws]; [congruence|].
      rewrite join_cons, IH. reflexivity.
    + pose proof (split_nonempty sep s) as Hne.
      destruct (split sep s) as [|w ws]; [congruence|].
      destruct ws as [|w' ws].
      * simpl in *. now rewrite IH.
      * rewrite join_cons in IH. rewrite join_cons.
        cbn [app] in *. now rewrite IH.
Qed.

Lemma join_piece_infix (sep : str) (l : list str) (w : str) :
  In w l -> exists a b, join sep l = a ++ w ++ b.
Proof.
  induction l as [|x l IH]; intros H; [destruct H|].
  destruct l as [|y l].
  - destruct H as [<- | []]. exists [], []. simpl. now rewrite app_nil_r.
  - rewrite join_cons. destruct H as [<- | H].
    + now exists [], (sep ++ join sep (y :: l)).
    + destruct (IH H) as (a & b & ->). exists (x ++ sep ++ a), b.
      now rewrite <- !app_assoc.
Qed.

Lemma split_piece_infix (sep : char) (s w : str) :
  In w (split sep s) -> exists a b, s = a ++ w ++ b.
Proof.
  intros H. destruct (join_piece_infix [sep] _ _ H) as (a & b & E).
  rewrite join_split in E. now exists a, b.
Qed.

Lemma split_no_sep_id (sep : char) (x : str) :
  ~ In sep x -> split sep x = [x].
Proof.
  induction x as [|c x IH]; intros H; simpl.
  - reflexivity.
  - destruct (N.eqb_spec c sep) as [E | E].
    + exfalso. apply H. now left.
    + rewrite IH; [reflexivity|]. intros Hin. apply H. now right.
Qed.

Lemma split_app_sep (sep : char) (x rest : str) :
  ~ In sep x -> split sep (x ++ sep :: rest) = x :: split sep rest.
Proof.
  induction x as [|c x IH]; intros H; simpl.
  - now rewrite N.eqb_refl.
  - destruct (N.eqb_spec c sep) as [E | E].
    + exfalso. apply H. now left.
    + rewrite IH; [reflexivity|]. intros Hin. apply H. now right.
Qed.

Lemma split_join (sep : char) (l : list str) :
  l <> [] -> Forall (fun w => ~ In sep w) l ->
  split sep (join [sep] l) = l.
Proof.
  induction l as [|x l IH]; intros Hne Hall; [congruence|].
  inversion Hall as [|? ? Hx Hl]; subst.
  destruct l as [|y l].
  - simpl. now apply split_no_sep_id.
  - rewrite join_cons. cbn [app]. rewrite split_app_sep by exact Hx.
    rewrite IH; [reflexivity | discriminate | exact Hl].
Qed.

Lemma startswith_app_r (p s r : str) :
  startswith p s = true -> startswith p (s ++ r) = true.
Proof.
  intros H. apply startswith_prefix in H as [x ->].
  rewrite <- app_assoc. apply startswith_app.
Qed.

Lemma endswith_app (suf s : str) : endswith suf (s ++ suf) = true.
Proof. unfold endswith. rewrite rev_app_distr. apply startswith_app. Qed.

Lemma lstrip_by_app_last (f : char -> bool) (x : str) (c : char) :
  f c = false -> lstrip_by f (x ++ [c]) = lstrip_by f x ++ [c].
Proof.
  intros H. induction x as [|d x IH]; simpl.
  - now rewrite H.
  - destruct (f d); [exact IH | reflexivity].
Qed.

Lemma rstrip_by_cons (f : char -> bool) (c : char) (t : str) :
  f c = false -> rstrip_by f (c :: t) = c :: rstrip_by f t.
Proof.
  intros H. unfold rstrip_by. simpl.
  rewrite lstrip_by_app_last by exact H. rewrite rev_app_distr. reflexivity.
Qed.

Lemma lstrip_by_idem (f : char -> bool) (s : str) :
  lstrip_by f (lstrip_by f s) = lstrip_by f s.
Proof.
  pose proof (lstrip_by_head f s) as H.
  destruct (lstrip_by f s) as [|c t]; [reflexivity|].
  now apply lstrip_by_fixed.
Qed.

Lemma rstrip_by_idem (f : char -> bool) (s : str) :
  rstrip_by f (rstrip_by f s) = rstrip_by f s.
Proof.
  unfold rstrip_by. rewrite rev_involutive. now rewrite lstrip_by_idem.
Qed.

(** What [rstrip_by] leaves does not end with a character of the class. *)
Lemma rstrip_by_last (f : char -> bool) (s : str) :
  match rev (rstrip_by f s) with
  | c :: _ => f c = false
  | [] => True
  end.
Proof.
  unfold rstrip_by. rewrite rev_involutive. apply lstrip_by_head.
Qed.

Section WithUnicode.
Context {U : Unicode}.

(** The trimmed text starts and ends with a character that is not
    whitespace. *)
Lemma strip_head (s : str) :
  match strip s with
  | c :: _ => isspace c = false
  | [] => True
  end.
Proof.
  unfold strip. pose proof (lstrip_by_head isspace s) as H.
  destruct (lstrip_by isspace s) as [|c t]; [exact I|].
  now rewrite rstrip_by_cons.
Qed.

Lemma strip_last (s : str) :
  match rev (strip s) with
  | c :: _ => isspace c = false
  | [] => True
  end.
Proof. unfold strip. apply rstrip_by_last. Qed.

Lemma strip_idem (s : str) : strip (strip s) = strip s.
Proof.
  pose proof (strip_head s) as H. unfold strip at 1.
  destruct (strip s) as [|c t] eqn:E; [reflexivity|].
  rewrite lstrip_by_fixed by exact H. rewrite <- E.
  unfold strip. apply rstrip_by_idem.
Qed.

Lemma strip_infix (s : str) : exists a b, s = a ++ strip s ++ b.
Proof.
  unfold strip. destruct (lstrip_by_suffix isspace s) as [a Ha].
  destruct (rstrip_by_prefix isspace (lstrip_by isspace s)) as [b Hb].
  exists a, b. now rewrite <- Hb.
Qed.

Lemma contains_strip (sub s : str) :
  contains sub (strip s) = true -> contains sub s = true.
Proof.
  intros H. destruct (strip_infix s) as (a & b & E). rewrite E.
  now apply contains_inside.
Qed.

Lemma strip_no_char (c : char) (s : str) : ~ In c s -> ~ In c (strip s).
Proof.
  intros H Hin. apply H. destruct (strip_infix s) as (a & b & E).
  rewrite E. apply in_or_app. right. apply in_or_app. now left.
Qed.

End WithUnicode.

End StringFacts.

(* ================================================================= *)
(** ** The codec *)

Module ConverterFacts.
Import Converter Notions StringFacts.

Section WithUnicode.
Context {U : Unicode}.

Lemma is_section_header_rule (text : str) :
  _is_section_header text = true <-> keyword_rule text.
Proof.
  unfold _is_section_header, keyword_rule. rewrite existsb_exists.
  reflexivity.
Qed.



Lemma ends_sentence_app_stop (s : str) : ends_sentence (s ++ lit ".") = true.
Proof. unfold ends_sentence. now rewrite endswith_app. Qed.

Lemma bullet_content_starts (line : str) :
  startswith [bullet] (bullet_content line) = true.
Proof.
  unfold bullet_content.
  set (content := if negb (startswith [bullet] (strip line))
                  then bullet :: ch " " :: strip line else strip line).
  assert (H : startswith [bullet] content = true).
  { subst content. destruct (startswith [bullet] (strip line)) eqn:E; simpl.
    - exact E.
    - reflexivity. }
  destruct (_ && _); [now apply startswith_app_r | exact H].
Qed.

Lemma bullet_content_ends (line : str) :
  ends_sentence (bullet_content line) = true.
Proof.
  unfold bullet_content.
  set (content := if negb (startswith [bullet] (strip line))
                  then bullet :: ch " " :: strip line else strip line).
  destruct (negb (endswith (lit ".") content) &&
            negb (endswith (lit "?") content) &&
            negb (endswith (lit "!") content)) eqn:E.
  - apply ends_sentence_app_stop.
  - unfold ends_sentence.
    destruct (endswith (lit ".") content), (endswith (lit "?") content),
             (endswith (lit "!") content); simpl in *; congruence.
Qed.


Lemma bullet_content_verbatim (line : str) :
  bullet_content line = strip line <->
  startswith [bullet] (strip line) = true /\
  ends_sentence (strip line) = true.
Proof.
  split.
  - intros E. rewrite <- E. split.
    + apply bullet_content_starts.
    + apply bullet_content_ends.
  - intros [Hs He]. unfold bullet_content. rewrite Hs. cbn [negb].
    unfold ends_sentence in He.
    destruct (endswith (lit ".") (strip line)),
             (endswith (lit "?") (strip line)),
             (endswith (lit "!") (strip line));
      simpl in *; congruence.
Qed.



End WithUnicode.



End ConverterFacts.

(* ================================================================= *)
(** ** Header recognition *)

Module HeaderFacts.
Import Notions StringFacts TailorFacts ConverterFacts.

Section WithUnicode.
Context {U : Unicode}.

Lemma all_caps_rule_strip (text : str) :
  all_caps_rule (strip text) <-> all_caps_rule text.
Proof. unfold all_caps_rule. now rewrite strip_idem. Qed.

Lemma is_header_rule (p : Paragraph) :
  is_header p = true <-> all_caps_rule (text p).
Proof.
  unfold is_header. rewrite is_all_caps_header_rule.
  apply all_caps_rule_strip.
Qed.

(** C7 (amended): section location treats a paragraph as a section header if
    and only if its trimmed text is non-empty, upper case and at most 48
    characters long: this is what [_is_all_caps_header] tests, and the headers
    of the sections that [_locate_sections] returns are exactly the
    paragraphs of the document that pass the test.  Encoding treats a
    paragraph as a section header if and only if its upper-cased text
    contains one of the section keywords of [_is_section_header], whatever
    its case and its length. *)
Theorem C7_header_recognition :
  (forall text, Tailor._is_all_caps_header text = true <-> all_caps_rule text) /\
  (forall doc p,
     In (Some p) (map fst (Tailor._locate_sections doc)) <->
     In p doc /\ all_caps_rule (text p)) /\
  (forall text, Converter._is_section_header text = true <-> keyword_rule text).
Proof.
  split; [exact is_all_caps_header_rule|].
  split; [|exact is_section_header_rule].
  intros doc p.
  rewrite <- In_headers_of, locate_sections_headers, filter_In.
  now rewrite is_header_rule.
Qed.

End WithUnicode.

(** C7 (counterexample): the text "ABC" is non-empty, upper case and three
    characters long, and encoding does not treat it as a section header: it
    is encoded as content of the HEADER section.  The text "Education" is not
    upper case, and encoding treats it as the header of the EDUCATION
    section. *)
Lemma C7_counterexample :
  (all_caps_rule (lit "ABC") /\
   Converter._is_section_header (lit "ABC") = false /\
   Converter.docx_to_structured_txt [Samples.heading 0 "ABC"] =
     lit "===HEADER===" ++ [Converter.nl] ++ lit "ABC") /\
  (~ all_caps_rule (lit "Education") /\
   Converter._is_section_header (lit "Education") = true /\
   Converter.docx_to_structured_txt [Samples.plain 0 "Education"] =
     [Converter.nl] ++ lit "===EDUCATION===" ++ [Converter.nl] ++
     lit "Education").
Proof.
  split.
  - split; [|split; reflexivity].
    repeat split; [discriminate | vm_compute; lia].
  - split; [|split; reflexivity].
    intros (_ & H & _). discriminate H.
Qed.

End HeaderFacts.

(* ================================================================= *)
(** ** The decoder *)

Module DecoderFacts.
Import Converter Notions StringFacts ConverterFacts.

Section WithUnicode.
Context {U : Unicode}.


Lemma piece_without (marker txt w : str) :
  contains marker txt = false -> In w (split nl txt) ->
  contains marker (strip w) = false /\ ~ In nl (strip w).
Proof.
  intros Hno Hin. split.
  - destruct (contains marker (strip w)) eqn:E; [|reflexivity].
    apply contains_strip in E.
    destruct (split_piece_infix _ _ _ Hin) as (a & b & Ht).
    rewrite Ht, (contains_inside _ _ a b E) in Hno. discriminate.
  - apply strip_no_char.
    pose proof (split_no_sep nl txt) as H.
    rewrite Forall_forall in H. now apply H.
Qed.






Section Emit.
Variable titles : list str.










End Emit.









End WithUnicode.




End DecoderFacts.

(* ================================================================= *)
(** ** The document store *)

Module StoreFacts.
Import Notions.


Lemma concat_cleared (rs : list Run) :
  concat (map r_text (map (set_run_text []) rs)) = [].
Proof. induction rs as [|r rs IH]; simpl; [reflexivity | exact IH]. Qed.

(** After [replace_text] the text of the paragraph is the new text. *)
Lemma text_replace_text (t : str) (p : Paragraph) :
  text (replace_text t p) = t.
Proof.
  unfold replace_text, text. destruct (runs p) as [|r rs]; simpl.
  - apply app_nil_r.
  - rewrite concat_cleared. apply app_nil_r.
Qed.

Lemma run_format_set_run_text (t : str) (r : Run) :
  run_format (set_run_text t r) = run_format r.
Proof. reflexivity. Qed.



(** The signature after [replace_text] does not depend on the text. *)
Lemma signature_replace_text_any (t t' : str) (p : Paragraph) :
  paragraph_xml_signature (replace_text t p) =
  paragraph_xml_signature (replace_text t' p).
Proof.
  unfold replace_text, paragraph_xml_signature.
  destruct (runs p) as [|r rs]; simpl; [reflexivity|].
  now rewrite !map_map.
Qed.

Lemma signature_with_ident (i : nat) (p : Paragraph) :
  paragraph_xml_signature (with_ident i p) = paragraph_xml_signature p.
Proof. reflexivity. Qed.

















End StoreFacts.

(* ================================================================= *)
(** ** The section rewriter *)

Module StrictFacts.
Import Strict Notions StringFacts StoreFacts.

Section WithUnicode.
Context {U : Unicode}.

(** One iteration of the cloning loop, written out. *)
Lemma insert_lines_cons (line : str) (rest : list str) (last : Paragraph)
    (st : Store) :
  insert_lines (line :: rest) last st =
  let new := with_ident (next_ident st) (deref st last) in
  let st1 := addnext (mkStore (paragraphs st) (S (next_ident st))) last new in
  let np := replace_text line (deref st1 new) in
  let r := insert_lines rest np (update st1 new (replace_text line)) in
  (fst r, np :: snd r).
Proof.
  cbn [insert_lines clone_paragraph_after deepcopy
       set_paragraph_text_preserve_runs].
  cbv zeta. now destruct (insert_lines rest _ _).
Qed.

(** The mixed rendering inserts what the uniform rendering inserts: the
    anchors have no part in it. *)
Lemma insert_lines_mixed_uniform (clean_lines : list str) :
  forall last bullet_anchor body_anchor default_anchor st,
    insert_lines_mixed clean_lines last bullet_anchor body_anchor
                       default_anchor st =
    insert_lines clean_lines last st.
Proof.
  induction clean_lines as [|line rest IH]; intros; [reflexivity|].
  cbn [insert_lines_mixed insert_lines]. cbv zeta.
  destruct (clone_paragraph_after st last) as [st1 p1].
  destruct (set_paragraph_text_preserve_runs st1 p1 line) as [st2 p2].
  now rewrite IH.
Qed.

(** Each new paragraph has the text of its line. *)
Lemma insert_lines_texts (lines : list str) :
  forall last st, map text (snd (insert_lines lines last st)) = lines.
Proof.
  induction lines as [|line rest IH]; intros last st; [reflexivity|].
  rewrite insert_lines_cons. cbv zeta. cbn [snd map].
  now rewrite text_replace_text, IH.
Qed.

Lemma insert_lines_length (lines : list str) (last : Paragraph) (st : Store) :
  length (snd (insert_lines lines last st)) = length lines.
Proof.
  rewrite <- (insert_lines_texts lines last st) at 2.
  now rewrite length_map.
Qed.




Lemma collapse_true_head (s : str) :
  match collapse_ws_from true s with
  | d :: _ => isspace d = false
  | [] => True
  end.
Proof.
  induction s as [|c s IH]; cbn [collapse_ws_from]; [exact I|].
  destruct (isspace c) eqn:E; [exact IH | exact E].
Qed.

Lemma single_spaced_collapse (s : str) :
  forall in_run, single_spaced (collapse_ws_from in_run s) = true.
Proof.
  induction s as [|c s IH]; intros in_run; [reflexivity|].
  cbn [collapse_ws_from]. destruct (isspace c) eqn:E.
  - destruct in_run; [apply IH|].
    cbn [single_spaced]. rewrite IH, andb_true_r.
    destruct (isspace (ch " ")); [|reflexivity].
    rewrite N.eqb_refl. cbn [andb].
    pose proof (collapse_true_head s) as H.
    destruct (collapse_ws_from true s) as [|d t]; [reflexivity|].
    now rewrite H.
  - cbn [single_spaced]. now rewrite E, IH.
Qed.

Lemma single_spaced_suffix (a t : str) :
  single_spaced (a ++ t) = true -> single_spaced t = true.
Proof.
  induction a as [|c a IH]; cbn [app single_spaced]; [trivial|].
  intros H. apply andb_true_iff in H as [_ H]. now apply IH.
Qed.

Lemma single_spaced_prefix (t b : str) :
  single_spaced (t ++ b) = true -> single_spaced t = true.
Proof.
  induction t as [|c t IH]; cbn [app single_spaced]; [trivial|].
  intros H. apply andb_true_iff in H as [Hc H]. rewrite (IH H), andb_true_r.
  destruct (isspace c); [|reflexivity].
  apply andb_true_iff in Hc as [Hc Hd]. rewrite Hc. cbn [andb].
  destruct t as [|d t]; [reflexivity | exact Hd].
Qed.

Lemma single_spaced_strip (s : str) :
  single_spaced s = true -> single_spaced (strip s) = true.
Proof.
  intros H. destruct (strip_infix s) as (a & b & E). rewrite E in H.
  apply single_spaced_suffix in H. now apply single_spaced_prefix in H.
Qed.

Lemma leading_glyph_space (c : char) :
  leading_glyph c = false -> isspace c = false.
Proof.
  unfold leading_glyph. intros H. now apply orb_false_iff in H as [_ H].
Qed.

(** The normalised line does not start with a bullet glyph, a dash, an
    asterisk or whitespace. *)
Lemma sanitize_head (s : str) :
  match _sanitize s with
  | c :: _ => leading_glyph c = false
  | [] => True
  end.
Proof.
  unfold _sanitize.
  pose proof (lstrip_by_head leading_glyph (strip s)) as H.
  destruct (lstrip_by leading_glyph (strip s)) as [|c t]; [exact I|].
  pose proof (leading_glyph_space c H) as Hc.
  unfold collapse_ws. cbn [collapse_ws_from]. rewrite Hc.
  unfold strip. rewrite lstrip_by_fixed by exact Hc.
  now rewrite rstrip_by_cons.
Qed.

Lemma sanitize_single_spaced (s : str) : single_spaced (_sanitize s) = true.
Proof. unfold _sanitize. apply single_spaced_strip, single_spaced_collapse. Qed.

Lemma sanitize_last (s : str) :
  match rev (_sanitize s) with
  | c :: _ => isspace c = false
  | [] => True
  end.
Proof. unfold _sanitize. apply strip_last. Qed.

(** What [rewrite_section_from_lines] does, with the new paragraphs named. *)
Lemma rewrite_unfold (st : Store) (header : Paragraph)
    (old_body : list Paragraph) (lines : list str)
    (bullet_anchor body_anchor : option Paragraph)
    (strict_verify mixed_mode : bool) :
  let default_anchor :=
    default_anchor_of header (had_bullets_in (map (deref st) old_body))
                      bullet_anchor body_anchor in
  let r := insert_lines (clean_lines_of lines) header
                        (fold_left delete_paragraph old_body st) in
  rewrite_section_from_lines st header old_body lines bullet_anchor
                             body_anchor strict_verify mixed_mode =
  (fst r,
   if strict_verify then
     if mixed_mode then
       verify_mixed (snd r)
         (paragraph_xml_signature
            (deref st (or_default bullet_anchor default_anchor)))
         (paragraph_xml_signature
            (deref st (or_default body_anchor default_anchor)))
     else verify (snd r) (paragraph_xml_signature (deref st default_anchor))
   else Returned).
Proof.
  cbv zeta. unfold rewrite_section_from_lines.
  rewrite insert_lines_mixed_uniform.
  destruct (insert_lines _ header _) as [st' new_pars].
  cbn [fst snd]. now destruct mixed_mode, strict_verify.
Qed.





Lemma sig_eqb_eq (a b : Signature) : sig_eqb a b = true <-> a = b.
Proof.
  unfold sig_eqb. destruct (Signature_eq_dec a b); split; congruence.
Qed.






(** Once a rewrite has raised, [apply_content] does nothing more. *)
Lemma rewrite_if_present_raised (job : option SectionJob)
    (bullet_anchor body_anchor : option Paragraph)
    (strict_verify mixed_mode : bool) (st : Store) (message : string) :
  rewrite_if_present job bullet_anchor body_anchor strict_verify mixed_mode
                     (st, Raised message) = (st, Raised message).
Proof. reflexivity. Qed.



(** The document after the rewrite does not depend on the anchors, nor on
    the rendering mode. *)
Lemma rewrite_ignores_anchors (st : Store) (header : Paragraph)
    (old_body : list Paragraph) (lines : list str)
    (bullet_anchor body_anchor bullet_anchor' body_anchor' : option Paragraph)
    (strict_verify strict_verify' mixed_mode mixed_mode' : bool) :
  fst (rewrite_section_from_lines st header old_body lines bullet_anchor
                                  body_anchor strict_verify mixed_mode) =
  fst (rewrite_section_from_lines st header old_body lines bullet_anchor'
                                  body_anchor' strict_verify' mixed_mode').
Proof.
  pose proof (rewrite_unfold st header old_body lines bullet_anchor
                body_anchor strict_verify mixed_mode) as E.
  pose proof (rewrite_unfold st header old_body lines bullet_anchor'
                body_anchor' strict_verify' mixed_mode') as E'.
  cbv zeta in E, E'. now rewrite E, E'.
Qed.

End WithUnicode.

(** C6 (the code at the failing input): the PROJECTS section of the sample
    master is rewritten in mixed mode with a title line and a detail line,
    the body anchor and the bullet anchor being the first two paragraphs of
    the master.  The first line is classified as a title and the second is
    not.  Both new paragraphs have the signature of the section header, which
    is neither the signature of the body anchor nor that of the bullet
    anchor; with [strict_verify = true] the same call raises the
    formatting-drift error. *)
Theorem C6_mixed_mode_clones_header :
  let rewrite strict_verify :=
    Strict.rewrite_section_from_lines Samples.master Samples.projects_header
      Samples.projects_body Samples.projects_lines
      (Some Samples.bullet_anchor) (Some Samples.body_anchor)
      strict_verify true in
  let new_pars := skipn 3 (paragraphs (fst (rewrite false))) in
  map Strict.looks_like_title Samples.projects_lines = [true; false] /\
  snd (rewrite false) = Strict.Returned /\
  map text new_pars = Samples.projects_lines /\
  map paragraph_xml_signature new_pars =
    [paragraph_xml_signature Samples.projects_header;
     paragraph_xml_signature Samples.projects_header] /\
  paragraph_xml_signature Samples.projects_header <>
    paragraph_xml_signature Samples.body_anchor /\
  paragraph_xml_signature Samples.projects_header <>
    paragraph_xml_signature Samples.bullet_anchor /\
  snd (rewrite true) = Strict.Raised Strict.drift_message_mixed.
Proof.
  cbv zeta. repeat split; try reflexivity; intros H; discriminate H.
Qed.


End StrictFacts.

(* ================================================================= *)
(** ** Replacing a section body in place *)

Module BodyFacts.
Import Tailor Notions StoreFacts.











Lemma find_some_in (f : Paragraph -> bool) (l : list Paragraph)
    (q : Paragraph) :
  find f l = Some q -> In q l /\ f q = true.
Proof. apply find_some. Qed.




Section WithUnicode.
Context {U : Unicode}.




End WithUnicode.
End BodyFacts.

(* ================================================================= *)
(** ** Line counts of a rewritten section *)

Module LineCounts.
Import Notions StoreFacts StrictFacts BodyFacts.

Section WithUnicode.
Context {U : Unicode}.


End WithUnicode.



End LineCounts.

(* ================================================================= *)
(** ** More about the codec *)

Module CodecExtras.
Import Converter Notions StringFacts ConverterFacts DecoderFacts.

Section WithUnicode.
Context {U : Unicode}.

Lemma encode_step_blank (st : list str * option SectionKey) (p : Paragraph) :
  not_blank (text p) = false -> encode_step st p = st.
Proof.
  unfold not_blank, encode_step. intros H. destruct st as [ls cs].
  now rewrite H.
Qed.

Lemma encode_fold_skips_blank (doc : Document) :
  forall st,
    fold_left encode_step doc st =
    fold_left encode_step (filter (fun p => not_blank (text p)) doc) st.
Proof.
  induction doc as [|p doc IH]; intros st; [reflexivity|].
  cbn [fold_left filter]. destruct (not_blank (text p)) eqn:E.
  - cbn [fold_left]. apply IH.
  - rewrite (encode_step_blank st p E). apply IH.
Qed.

(** X1: blank paragraphs have no part in the encoding: a document and the
    document without its blank paragraphs are encoded alike. *)
Theorem encode_skips_blank_paragraphs (doc : Document) :
  docx_to_structured_txt doc =
  docx_to_structured_txt (filter (fun p => not_blank (text p)) doc).
Proof.
  unfold docx_to_structured_txt. now rewrite encode_fold_skips_blank.
Qed.

Lemma encode_step_header_content (ls : list str) (p : Paragraph) :
  _is_section_header (strip (text p)) = false ->
  encode_step (ls, Some HEADER) p =
  (if nonempty (strip (text p)) then ls ++ [strip (text p)] else ls,
   Some HEADER).
Proof.
  intros H. unfold encode_step. rewrite H.
  now destruct (nonempty (strip (text p))).
Qed.

Lemma encode_fold_header_content (doc : Document) :
  forall ls,
    Forall (fun p => _is_section_header (strip (text p)) = false) doc ->
    fold_left encode_step doc (ls, Some HEADER) =
    (ls ++ Tailor.text_parts_of doc, Some HEADER).
Proof.
  induction doc as [|p doc IH]; intros ls H.
  - cbn. now rewrite app_nil_r.
  - inversion H as [|? ? Hp Hdoc]; subst. cbn [fold_left Tailor.text_parts_of].
    rewrite (encode_step_header_content ls p Hp).
    destruct (nonempty (strip (text p))).
    + rewrite (IH _ Hdoc). now rewrite <- app_assoc.
    + now apply IH.
Qed.

Lemma encode_fold_headerless (doc : Document) :
  Forall (fun p => _is_section_header (strip (text p)) = false) doc ->
  fold_left encode_step doc ([], None) =
  match Tailor.text_parts_of doc with
  | [] => ([], None)
  | _ :: _ => (section_markers HEADER :: Tailor.text_parts_of doc, Some HEADER)
  end.
Proof.
  induction doc as [|p doc IH]; intros H; [reflexivity|].
  inversion H as [|? ? Hp Hdoc]; subst. cbn [fold_left Tailor.text_parts_of].
  unfold encode_step at 2. rewrite Hp.
  destruct (nonempty (strip (text p))); cbn [negb].
  - cbn [join]. replace (existsb _ section_markers_values) with false
      by reflexivity.
    cbn [negb app]. now rewrite (encode_fold_header_content doc _ Hdoc).
  - now apply IH.
Qed.

(** X2: a document in which the encoder recognises no section header is
    encoded as the HEADER marker followed by what [_read_docx_text] reads
    from it, the trimmed texts of its paragraphs that are not blank; a
    document of blank paragraphs only is encoded as the empty text. *)
Theorem encode_headerless_document (doc : Document) :
  Forall (fun p => _is_section_header (strip (text p)) = false) doc ->
  docx_to_structured_txt doc =
  match Tailor.text_parts_of doc with
  | [] => []
  | _ :: _ => section_markers HEADER ++ [nl] ++ Tailor._read_docx_text doc
  end.
Proof.
  intros H. unfold docx_to_structured_txt, Tailor._read_docx_text.
  rewrite (encode_fold_headerless doc H).
  destruct (Tailor.text_parts_of doc) as [|t ts]; reflexivity.
Qed.

(** The state of the parser holds trimmed lines of the text only, and no
    empty list. *)
Lemma parse_step_trimmed (raw : list str) (line : str)
    (st : Sections * option SectionKey * list str) :
  In line raw ->
  (forall k l, fst (fst st) k = Some l ->
               l <> [] /\ Forall (trimmed_line raw) l) ->
  Forall (trimmed_line raw) (snd st) ->
  (forall k l, fst (fst (parse_step st line)) k = Some l ->
               l <> [] /\ Forall (trimmed_line raw) l) /\
  Forall (trimmed_line raw) (snd (parse_step st line)).
Proof.
  intros Hin Hs Hc. destruct st as [[sections cs] cl].
  cbn [fst snd] in Hs, Hc. unfold parse_step.
  destruct (nonempty (strip line)) eqn:Hne; cbn [negb]; [|now split].
  assert (Ht : trimmed_line raw (strip line)).
  { split; [now destruct (strip line) | now apply in_map]. }
  assert (Hstart : forall new_section,
    (forall k l,
       fst (fst (let '(sections0, current_section) :=
                   _save_and_start_section sections cs cl new_section in
                 (sections0, current_section, @nil str))) k = Some l ->
       l <> [] /\ Forall (trimmed_line raw) l) /\
    Forall (trimmed_line raw)
      (snd (let '(sections0, current_section) :=
              _save_and_start_section sections cs cl new_section in
            (sections0, current_section, @nil str)))).
  { intros new_section. unfold _save_and_start_section.
    destruct cs as [k0|], cl as [|c cl']; cbn [fst snd];
      (split; [|constructor]); try exact Hs.
    intros k l. unfold set_section.
    destruct (SectionKey_eqb k k0); [|apply Hs].
    intros E. injection E as <-. split; [discriminate | exact Hc]. }
  destruct (contains (lit "===HEADER===") (strip line)); [apply Hstart|].
  destruct (contains (lit "===EDUCATION===") (strip line)); [apply Hstart|].
  destruct (contains (lit "===PROJECTS===") (strip line)); [apply Hstart|].
  destruct (_ || _); [apply Hstart|].
  destruct (_ || _); [apply Hstart|].
  destruct cs as [k0|]; cbn [fst snd].
  - split; [exact Hs|]. apply Forall_app. split; [exact Hc | now constructor].
  - split; [|exact Hc]. intros k l. unfold set_section at 1.
    destruct (SectionKey_eqb k HEADER) eqn:Ek.
    + intros E. injection E as <-. split; [now destruct (get_section _ _)|].
      apply Forall_app. split; [|now constructor].
      unfold get_section. destruct (sections HEADER) as [v|] eqn:Ev.
      * rewrite Ev. now apply (Hs HEADER).
      * unfold set_section. cbn. constructor.
    + destruct (sections HEADER) as [v|] eqn:Ev; [apply Hs|].
      unfold set_section. rewrite Ek. apply Hs.
Qed.

Lemma parse_fold_trimmed (raw lines : list str) :
  forall st,
    incl lines raw ->
    (forall k l, fst (fst st) k = Some l ->
                 l <> [] /\ Forall (trimmed_line raw) l) ->
    Forall (trimmed_line raw) (snd st) ->
    (forall k l, fst (fst (fold_left parse_step lines st)) k = Some l ->
                 l <> [] /\ Forall (trimmed_line raw) l) /\
    Forall (trimmed_line raw) (snd (fold_left parse_step lines st)).
Proof.
  induction lines as [|line lines IH]; intros st Hincl Hs Hc.
  - now split.
  - cbn [fold_left].
    destruct (parse_step_trimmed raw line st (Hincl line (or_introl eq_refl))
                Hs Hc) as [Hs' Hc'].
    apply IH; [|exact Hs' | exact Hc'].
    intros x Hx. apply Hincl. now right.
Qed.

(** X3: whatever the text, every list that the parser stores is non-empty,
    and each of its lines is a line of the text, trimmed, and not empty: a
    marker without content lines leaves no key, and no blank line is
    stored. *)
Theorem parse_stores_trimmed_lines (structured_txt : str) (k : SectionKey)
    (l : list str) :
  _parse_ai_structured_txt structured_txt k = Some l ->
  l <> [] /\
  Forall (fun x => x <> [] /\ strip x = x /\
                   In x (map strip (split nl structured_txt))) l.
Proof.
  unfold _parse_ai_structured_txt.
  destruct (parse_fold_trimmed (split nl structured_txt)
              (split nl structured_txt) (empty_sections, None, [])
              (incl_refl _)) as [Hs Hc].
  { intros k0 l0 H. discriminate H. }
  { constructor. }
  destruct (fold_left parse_step _ _) as [[sections cs] cl].
  cbn [fst snd] in Hs, Hc. intros H.
  assert (Hl : l <> [] /\ Forall (trimmed_line (split nl structured_txt)) l).
  { destruct cs as [k0|]; [|now apply (Hs k)].
    destruct cl as [|c cl']; [now apply (Hs k)|].
    unfold set_section in H. destruct (SectionKey_eqb k k0).
    - injection H as <-. split; [discriminate | exact Hc].
    - now apply (Hs k). }
  destruct Hl as [Hne Hall]. split; [exact Hne|].
  eapply Forall_impl; [|exact Hall].
  intros x [Hx Hin]. split; [exact Hx|]. split; [|exact Hin].
  apply in_map_iff in Hin as (w & <- & _). apply strip_idem.
Qed.

End WithUnicode.

(** X2 (witness): the letterhead has no section header. *)
Lemma encode_headerless_document_witness :
  Converter.docx_to_structured_txt Samples.letterhead =
  lit "===HEADER===" ++ [Converter.nl] ++ lit "Jane Doe" ++ [Converter.nl] ++
  lit "jane@example.com | 555-0100".
Proof.
  rewrite (@encode_headerless_document basic_latin Samples.letterhead).
  - reflexivity.
  - repeat constructor.
Defined.

(** X3 (witness): the EDUCATION lines of the scenario of the spec. *)
Lemma parse_stores_trimmed_lines_witness :
  Converter._parse_ai_structured_txt Samples.scenario_text Converter.EDUCATION
    = Some [lit "State University | B.S. Engineering | 2020"] /\
  [lit "State University | B.S. Engineering | 2020"] <> [].
Proof.
  split; [reflexivity|].
  exact (proj1 (@parse_stores_trimmed_lines basic_latin Samples.scenario_text
                  Converter.EDUCATION _ eq_refl)).
Defined.

End CodecExtras.

(* ================================================================= *)
(** ** More about cleaning and parsing the structured text *)

Module ParserExtras.
Import Converter Notions StringFacts ConverterFacts DecoderFacts.

Lemma contains_trans (a b c : str) :
  contains a b = true -> contains b c = true -> contains a c = true.
Proof.
  intros Hab Hbc. apply contains_infix in Hab as (x & y & ->).
  apply contains_infix in Hbc as (u & v & ->).
  apply contains_infix. exists (u ++ x), (y ++ v).
  now rewrite <- !app_assoc.
Qed.

Lemma contains_none (a b c : str) :
  contains a b = true -> contains a c = false -> contains b c = false.
Proof.
  intros Hab Hac. destruct (contains b c) eqn:E; [|reflexivity].
  now rewrite (contains_trans a b c Hab E) in Hac.
Qed.

Section WithUnicode.
Context {U : Unicode}.

(** A line without "===" is content; with no section started it goes to
    HEADER. *)
Lemma parse_step_plain (sections : Sections) (cl : list str) (line : str) :
  contains (lit "===") (strip line) = false ->
  nonempty (strip line) = true ->
  parse_step (sections, None, cl) line =
  (set_section
     (match sections HEADER with
      | None => set_section sections HEADER []
      | Some _ => sections
      end) HEADER
     (get_section
        (match sections HEADER with
         | None => set_section sections HEADER []
         | Some _ => sections
         end) HEADER ++ [strip line]), None, cl).
Proof.
  intros Hno Hne. unfold parse_step. rewrite Hne. cbn [negb].
  rewrite (contains_none (lit "===") (lit "===HEADER===") _ eq_refl Hno).
  rewrite (contains_none (lit "===") (lit "===EDUCATION===") _ eq_refl Hno).
  rewrite (contains_none (lit "===") (lit "===PROJECTS===") _ eq_refl Hno).
  rewrite (contains_none (lit "===") (lit "===PROFESSIONAL EXPERIENCE===") _
             eq_refl Hno).
  rewrite (contains_none (lit "===") (lit "===EXPERIENCE===") _ eq_refl Hno).
  rewrite (contains_none (lit "===") (lit "===TECHNICAL SKILLS===") _
             eq_refl Hno).
  rewrite (contains_none (lit "===") (lit "===SKILLS===") _ eq_refl Hno).
  reflexivity.
Qed.

Lemma parse_fold_plain (lines : list str) :
  forall (sections : Sections) (acc : list str),
    Forall (fun l => contains (lit "===") (strip l) = false) lines ->
    sections HEADER = match acc with [] => None | _ :: _ => Some acc end ->
    (forall k, k <> HEADER -> sections k = None) ->
    exists sections',
      fold_left parse_step lines (sections, None, []) = (sections', None, []) /\
      sections' HEADER =
        match acc ++ filter nonempty (map strip lines) with
        | [] => None
        | _ :: _ => Some (acc ++ filter nonempty (map strip lines))
        end /\
      (forall k, k <> HEADER -> sections' k = None).
Proof.
  induction lines as [|line lines IH]; intros sections acc Hall Hh Ho.
  - exists sections. cbn [fold_left map filter]. rewrite app_nil_r.
    now split; [|split].
  - inversion Hall as [|? ? Hl Hrest]; subst. cbn [fold_left map filter].
    destruct (nonempty (strip line)) eqn:Hne.
    + rewrite (parse_step_plain sections [] line Hl Hne).
      destruct (IH (set_section
                      (match sections HEADER with
                       | None => set_section sections HEADER []
                       | Some _ => sections
                       end) HEADER
                      (get_section
                         (match sections HEADER with
                          | None => set_section sections HEADER []
                          | Some _ => sections
                          end) HEADER ++ [strip line]))
                   (acc ++ [strip line]) Hrest)
        as (sections' & Hf & Hh' & Ho').
      * unfold set_section at 1. cbn [SectionKey_eqb].
        replace (get_section _ HEADER) with acc.
        { now destruct acc. }
        unfold get_section. rewrite Hh. destruct acc as [|a acc'].
        -- reflexivity.
        -- now rewrite Hh.
      * intros k Hk. unfold set_section at 1.
        destruct k; try congruence; cbn [SectionKey_eqb];
          destruct (sections HEADER); unfold set_section;
          cbn [SectionKey_eqb]; now apply Ho.
      * exists sections'. split; [exact Hf|]. split; [|exact Ho'].
        rewrite <- app_assoc in Hh'. exact Hh'.
    + assert (E : parse_step (sections, None, []) line = (sections, None, [])).
      { unfold parse_step. now rewrite Hne. }
      rewrite E. now apply IH.
Qed.

(** X4: a text without "===" has no marker line, and the parser files all
    of it under HEADER: the lines that are not blank, trimmed and in their
    order; no other key is present, and HEADER itself is absent when every
    line is blank. *)
Theorem parse_text_without_markers (structured_txt : str) (k : SectionKey) :
  contains (lit "===") structured_txt = false ->
  _parse_ai_structured_txt structured_txt k =
  match k with
  | HEADER =>
      match filter nonempty (map strip (split nl structured_txt)) with
      | [] => None
      | l => Some l
      end
  | _ => None
  end.
Proof.
  intros Hno. unfold _parse_ai_structured_txt.
  destruct (parse_fold_plain (split nl structured_txt) empty_sections [])
    as (sections' & Hf & Hh & Ho).
  - apply Forall_forall. intros w Hw.
    exact (proj1 (@piece_without U (lit "===") structured_txt w Hno Hw)).
  - reflexivity.
  - reflexivity.
  - rewrite Hf. cbn [app] in Hh.
    destruct k; try (apply Ho; discriminate).
    rewrite Hh. now destruct (filter _ _).
Qed.

(** The lines that the cleaner keeps are trimmed lines of the text in which
    no instruction heading occurs. *)
Lemma clean_lines_kept (P : str -> Prop) (lines : list str) :
  forall acc skip,
    Forall P acc ->
    Forall (fun l => no_heading (strip l) = true -> P (strip l)) lines ->
    Forall P (fst (fold_left clean_step lines (acc, skip))).
Proof.
  induction lines as [|line lines IH]; intros acc skip Hacc Hlines.
  - exact Hacc.
  - inversion Hlines as [|? ? Hl Hrest]; subst. cbn [fold_left].
    unfold clean_step at 2. unfold no_heading in Hl.
    destruct (existsb _ instruction_headings); [now apply IH|].
    assert (Hadd : Forall P (acc ++ [strip line])).
    { apply Forall_app. split; [exact Hacc|]. constructor; [|constructor].
      now apply Hl. }
    destruct skip; [|now apply IH].
    destruct (_ || _); now apply IH.
Qed.

Lemma cleaned_lines_spec (structured_txt : str) :
  Forall (fun l => strip l = l /\ no_heading l = true /\ ~ In nl l)
         (fst (fold_left clean_step (split nl structured_txt) ([], false))).
Proof.
  apply clean_lines_kept; [constructor|].
  apply Forall_forall. intros w Hw Hh.
  split; [apply strip_idem|]. split; [exact Hh|].
  apply strip_no_char. pose proof (split_no_sep nl structured_txt) as H.
  rewrite Forall_forall in H. now apply H.
Qed.

(** X5: every line of the cleaned text is trimmed, and none contains one of
    the five instruction headings. *)
Theorem cleaned_text_has_no_heading (structured_txt : str) :
  Forall (fun l => strip l = l /\
                   Forall (fun keyword => contains keyword l = false)
                          instruction_headings)
         (split nl (_clean_structured_txt structured_txt)).
Proof.
  assert (Hconv : forall l,
            strip l = l /\ no_heading l = true /\ ~ In nl l ->
            strip l = l /\
            Forall (fun keyword => contains keyword l = false)
                   instruction_headings).
  { intros l (Hs & Hh & _). split; [exact Hs|].
    unfold no_heading in Hh. apply negb_true_iff in Hh.
    apply Forall_forall. intros keyword Hk.
    destruct (contains keyword l) eqn:E; [|reflexivity].
    assert (X : existsb (fun keyword => contains keyword l)
                        instruction_headings = true)
      by (apply existsb_exists; now exists keyword).
    congruence. }
  unfold _clean_structured_txt.
  pose proof (cleaned_lines_spec structured_txt) as H.
  destruct (fold_left clean_step (split nl structured_txt) ([], false))
    as [cl skip]. cbn [fst] in H.
  destruct cl as [|l cl].
  - cbn [join split]. constructor; [|constructor].
    split; [reflexivity|]. repeat constructor.
  - rewrite split_join.
    + eapply Forall_impl; [|exact H]. exact Hconv.
    + discriminate.
    + eapply Forall_impl; [|exact H]. now intros a (_ & _ & Ha).
Qed.

Lemma clean_fold_fixed (cl : list str) :
  forall acc,
    Forall (fun l => strip l = l /\ no_heading l = true /\ ~ In nl l) cl ->
    fold_left clean_step cl (acc, false) = (acc ++ cl, false).
Proof.
  induction cl as [|l cl IH]; intros acc H.
  - cbn. now rewrite app_nil_r.
  - inversion H as [|? ? (Hs & Hh & _) Hrest]; subst. cbn [fold_left].
    unfold clean_step at 2. rewrite Hs. unfold no_heading in Hh.
    apply negb_true_iff in Hh. rewrite Hh.
    rewrite (IH _ Hrest). now rewrite <- app_assoc.
Qed.

(** X6: cleaning is idempotent: the cleaned text is left as it is by a
    second cleaning. *)
Theorem clean_structured_txt_idempotent (structured_txt : str) :
  _clean_structured_txt (_clean_structured_txt structured_txt) =
  _clean_structured_txt structured_txt.
Proof.
  unfold _clean_structured_txt at 2 3.
  pose proof (cleaned_lines_spec structured_txt) as H.
  destruct (fold_left clean_step (split nl structured_txt) ([], false))
    as [cl skip]. cbn [fst] in H.
  destruct cl as [|l cl].
  - reflexivity.
  - unfold _clean_structured_txt. rewrite split_join.
    + now rewrite (clean_fold_fixed (l :: cl) [] H).
    + discriminate.
    + eapply Forall_impl; [|exact H]. now intros a (_ & _ & Ha).
Qed.

End WithUnicode.

(** X4 (witness): two lines and a blank line between them. *)
Lemma parse_text_without_markers_witness :
  Converter._parse_ai_structured_txt
    (lit "Jane Doe" ++ [Converter.nl; Converter.nl] ++ lit "  Austin, TX ")
    Converter.HEADER = Some [lit "Jane Doe"; lit "Austin, TX"].
Proof.
  rewrite (@parse_text_without_markers basic_latin _ Converter.HEADER).
  - reflexivity.
  - reflexivity.
Defined.

End ParserExtras.

(* ================================================================= *)
(** ** More about building the decoded document *)

Module BuilderExtras.
Import Converter Notions StringFacts ConverterFacts DecoderFacts StoreFacts.

Lemma replace_char_absent (c : char) (s : str) : ~ In c (replace [c] [] s).
Proof.
  unfold replace. induction s as [|a s IH]; [intros []|].
  cbn [replace_from startswith length Nat.sub app].
  destruct (N.eqb_spec c a) as [E | E]; cbn [andb].
  - exact IH.
  - intros [H | H]; [congruence | now apply IH].
Qed.

Section WithUnicode.
Context {U : Unicode}.

Lemma header_loop_appends (lines : list str) :
  forall i doc,
    exists news,
      header_loop i lines doc = doc ++ news /\
      length news = length (filter not_blank lines).
Proof.
  induction lines as [|line lines IH]; intros i doc.
  - exists []. now rewrite app_nil_r.
  - cbn [header_loop filter]. unfold not_blank at 1.
    destruct (nonempty (strip line)); cbn [negb]; [|apply IH].
    destruct (i =? 0); [|destruct (_is_contact_info line)];
      match goal with
      | |- context [header_loop _ _ (doc ++ [?p])] =>
          destruct (IH (S i) (doc ++ [p])) as (news & -> & Hl);
          exists (p :: news); rewrite <- app_assoc; split;
          [reflexivity | cbn [length]; now rewrite Hl]
      end.
Qed.

Lemma education_loop_appends (lines : list str) :
  forall doc,
    exists news,
      education_loop lines doc = doc ++ news /\
      length news = length (filter not_blank lines).
Proof.
  induction lines as [|line lines IH]; intros doc.
  - exists []. now rewrite app_nil_r.
  - cbn [education_loop filter]. unfold not_blank at 1.
    destruct (nonempty (strip line)); [|apply IH].
    match goal with
    | |- context [education_loop _ (doc ++ [?p])] =>
        destruct (IH (doc ++ [p])) as (news & -> & Hl);
        exists (p :: news); rewrite <- app_assoc; split;
        [reflexivity | cbn [length]; now rewrite Hl]
    end.
Qed.

Lemma entries_loop_appends (lines : list str) :
  forall doc,
    exists news,
      entries_loop lines doc = doc ++ news /\
      length news = length (filter not_blank lines).
Proof.
  induction lines as [|line lines IH]; intros doc.
  - exists []. now rewrite app_nil_r.
  - cbn [entries_loop filter]. unfold not_blank at 1.
    destruct (nonempty (strip line)); cbn [negb]; [|apply IH].
    destruct (IH (doc ++ [entry_paragraph doc line])) as (news & -> & Hl).
    exists (entry_paragraph doc line :: news). rewrite <- app_assoc.
    split; [reflexivity | cbn [length]; now rewrite Hl].
Qed.

Lemma skills_loop_appends (lines : list str) :
  forall doc,
    exists news,
      skills_loop lines doc = doc ++ news /\
      length news = length (filter kept_skill_line lines).
Proof.
  induction lines as [|line lines IH]; intros doc.
  - exists []. now rewrite app_nil_r.
  - cbn [skills_loop filter]. unfold kept_skill_line at 1, not_blank.
    destruct (nonempty (strip line)); cbn [negb andb]; [|apply IH].
    destruct (existsb _ instruction_words); cbn [negb]; [apply IH|].
    destruct (IH (doc ++ [skills_paragraph doc line])) as (news & -> & Hl).
    exists (skills_paragraph doc line :: news). rewrite <- app_assoc.
    split; [reflexivity | cbn [length]; now rewrite Hl].
Qed.

Lemma length_add_header_section (doc : Document) (lines : list str) :
  length (_add_header_section doc lines) =
  length doc + length (filter not_blank lines).
Proof.
  unfold _add_header_section.
  destruct (header_loop_appends lines 0 doc) as (news & -> & Hl).
  now rewrite length_app, Hl.
Qed.

Lemma length_add_education_section (doc : Document) (lines : list str) :
  length (_add_education_section doc lines) =
  length doc + section_size 1 (filter not_blank lines) lines.
Proof.
  unfold _add_education_section, section_size.
  destruct lines as [|l ls]; [lia|].
  match goal with
  | |- context [education_loop ?ls ?d] =>
      destruct (education_loop_appends ls d) as (news & -> & Hl)
  end.
  rewrite !length_app, Hl. cbn [length]. lia.
Qed.

Lemma length_add_projects_section (doc : Document) (lines : list str) :
  length (_add_projects_section doc lines) =
  length doc + section_size 2 (filter not_blank lines) lines.
Proof.
  unfold _add_projects_section, section_size.
  destruct lines as [|l ls]; [lia|].
  match goal with
  | |- context [entries_loop ?ls ?d] =>
      destruct (entries_loop_appends ls d) as (news & -> & Hl)
  end.
  rewrite !length_app, Hl. cbn [length]. lia.
Qed.

Lemma length_add_experience_section (doc : Document) (lines : list str) :
  length (_add_experience_section doc lines) =
  length doc + section_size 2 (filter not_blank lines) lines.
Proof.
  unfold _add_experience_section, section_size.
  destruct lines as [|l ls]; [lia|].
  match goal with
  | |- context [entries_loop ?ls ?d] =>
      destruct (entries_loop_appends ls d) as (news & -> & Hl)
  end.
  rewrite !length_app, Hl. cbn [length]. lia.
Qed.

Lemma length_add_skills_section (doc : Document) (lines : list str) :
  length (_add_skills_section doc lines) =
  length doc + section_size 2 (filter kept_skill_line lines) lines.
Proof.
  unfold _add_skills_section, section_size.
  destruct lines as [|l ls]; [lia|].
  match goal with
  | |- context [skills_loop ?ls ?d] =>
      destruct (skills_loop_appends ls d) as (news & -> & Hl)
  end.
  rewrite !length_app, Hl. cbn [length]. lia.
Qed.

(** X7: what the five section builders add to a document.  The header
    builder adds one paragraph for each line that is not blank, also for a
    line after the first that is not contact data, whose paragraph stays
    without text.  The other builders add nothing for an empty list of
    lines; else EDUCATION adds its header paragraph, PROJECTS, PROFESSIONAL
    EXPERIENCE and TECHNICAL SKILLS add a blank paragraph and the header
    paragraph, and then one paragraph for each line that is not blank, a
    skills line counting only if it contains no instruction word. *)
Theorem builders_paragraph_counts (doc : Document) (lines : list str) :
  length (_add_header_section doc lines) =
    length doc + length (filter not_blank lines) /\
  length (_add_education_section doc lines) =
    length doc + section_size 1 (filter not_blank lines) lines /\
  length (_add_projects_section doc lines) =
    length doc + section_size 2 (filter not_blank lines) lines /\
  length (_add_experience_section doc lines) =
    length doc + section_size 2 (filter not_blank lines) lines /\
  length (_add_skills_section doc lines) =
    length doc + section_size 2 (filter kept_skill_line lines) lines.
Proof.
  split; [apply length_add_header_section|].
  split; [apply length_add_education_section|].
  split; [apply length_add_projects_section|].
  split; [apply length_add_experience_section|].
  apply length_add_skills_section.
Qed.



Lemma unstar_no_star (s : str) : ~ In (ch "*") (unstar s).
Proof.
  unfold unstar. apply strip_no_char.
  apply (replace_char_absent (ch "*")).
Qed.

Lemma skills_paragraph_no_star (doc : Document) (line : str) :
  ~ In (ch "*") (text (skills_paragraph doc line)).
Proof.
  unfold skills_paragraph, text.
  destruct (contains (lit ":") line).
  - match goal with
    | |- context [nonempty ?x] => destruct (nonempty x) eqn:E
    end; cbn; rewrite ?app_nil_r; intros H.
    + apply in_app_or in H as [H | H].
      * apply in_app_or in H as [H | [H | []]];
          [now apply unstar_no_star in H | discriminate H].
      * destruct H as [H | H]; [discriminate H|].
        now apply unstar_no_star in H.
    + apply in_app_or in H as [H | [H | []]];
        [now apply unstar_no_star in H | discriminate H].
  - cbn. rewrite app_nil_r. apply unstar_no_star.
Qed.

Lemma skills_loop_no_star (lines : list str) :
  forall doc,
    Forall (fun p => ~ In (ch "*") (text p)) doc ->
    Forall (fun p => ~ In (ch "*") (text p)) (skills_loop lines doc).
Proof.
  induction lines as [|line lines IH]; intros doc Hdoc; [exact Hdoc|].
  cbn [skills_loop]. destruct (nonempty (strip line)); cbn [negb];
    [|now apply IH].
  destruct (existsb _ instruction_words); [now apply IH|].
  apply IH, Forall_app. split; [exact Hdoc|].
  constructor; [apply skills_paragraph_no_star | constructor].
Qed.

(** X9: the skills builder removes every asterisk: no paragraph that
    [_add_skills_section] adds has a "*" in its text. *)
Theorem skills_section_has_no_asterisk (doc : Document)
    (skills_lines : list str) :
  Forall (fun p => ~ In (ch "*") (text p)) doc ->
  Forall (fun p => ~ In (ch "*") (text p))
         (_add_skills_section doc skills_lines).
Proof.
  intros Hdoc. unfold _add_skills_section.
  destruct skills_lines as [|l ls]; [exact Hdoc|].
  apply skills_loop_no_star. apply Forall_app. split.
  - apply Forall_app. split; [exact Hdoc|].
    constructor; [intros [] | constructor].
  - constructor; [|constructor]. cbn. intuition discriminate.
Qed.

Lemma strip_fixed (s : str) :
  match s with c :: _ => isspace c = false | [] => True end ->
  match rev s with c :: _ => isspace c = false | [] => True end ->
  strip s = s.
Proof.
  intros Hh Hl. unfold strip.
  assert (E : lstrip_by isspace s = s).
  { destruct s as [|c t]; [reflexivity | now apply lstrip_by_fixed]. }
  rewrite E. unfold rstrip_by.
  destruct (rev s) as [|c t] eqn:Er.
  - cbn. rewrite <- (rev_involutive s), Er. reflexivity.
  - rewrite lstrip_by_fixed by exact Hl. rewrite <- Er. apply rev_involutive.
Qed.

Lemma endswith_last (c : char) (s : str) :
  endswith [c] s = true -> exists t, rev s = c :: t.
Proof.
  unfold endswith. cbn [rev app]. intros H.
  apply startswith_prefix in H as [r Hr]. now exists r.
Qed.

(** X10: a bullet text is left as it is when it is rendered again: the
    bullet glyph and the full stop are added once.  The bullet glyph and the
    three characters that end a sentence are not whitespace. *)
Theorem bullet_content_idempotent (line : str) :
  isspace bullet = false ->
  isspace (ch ".") = false -> isspace (ch "?") = false ->
  isspace (ch "!") = false ->
  bullet_content (bullet_content line) = bullet_content line.
Proof.
  intros Hb Hs Hq He.
  pose proof (bullet_content_starts line) as Hstart.
  pose proof (bullet_content_ends line) as Hend.
  assert (Hfix : strip (bullet_content line) = bullet_content line).
  { apply strip_fixed.
    - apply startswith_prefix in Hstart as [r ->]. exact Hb.
    - unfold ends_sentence in Hend.
      apply orb_true_iff in Hend as [Hend | Hend];
        [apply orb_true_iff in Hend as [Hend | Hend]|];
        apply endswith_last in Hend as [t ->]; assumption. }
  rewrite <- Hfix at 2. apply bullet_content_verbatim.
  rewrite Hfix. now split.
Qed.

(** X11: the headers that the encoder writes without a marker.  A text is
    taken for a section header and mapped to no section key exactly when its
    upper-cased form has "SUMMARY" in it (within the trimmed form) and none
    of "EDUCATION", "PROJECTS", "EXPERIENCE", "SKILL" and "TECHNICAL": every
    other keyword of the header test leads to a key. *)
Theorem header_without_marker (text : str) :
  _is_section_header text = true /\ _map_to_section_key text = None <->
  contains (lit "SUMMARY") (strip (upper text)) = true /\
  contains (lit "EDUCATION") (upper text) = false /\
  contains (lit "PROJECTS") (upper text) = false /\
  contains (lit "EXPERIENCE") (upper text) = false /\
  contains (lit "SKILL") (upper text) = false /\
  contains (lit "TECHNICAL") (upper text) = false.
Proof.
  unfold _is_section_header, _map_to_section_key, section_keywords.
  cbn [existsb]. rewrite orb_false_r.
  split.
  - intros [Hh Hm].
    destruct (contains (lit "EDUCATION") (upper text)) eqn:E1;
      [discriminate|].
    destruct (contains (lit "PROJECTS") (upper text)) eqn:E2;
      [discriminate|].
    destruct (contains (lit "EXPERIENCE") (upper text)) eqn:E3;
      [discriminate|].
    destruct (contains (lit "SKILL") (upper text)) eqn:E4;
      [discriminate|].
    destruct (contains (lit "TECHNICAL") (upper text)) eqn:E5;
      [discriminate|].
    split; [|now repeat split].
    assert (No : forall keyword sub,
              contains sub keyword = true ->
              contains sub (upper text) = false ->
              contains keyword (strip (upper text)) = false).
    { intros keyword sub Hk Hsub.
      destruct (contains keyword (strip (upper text))) eqn:E; [|reflexivity].
      apply contains_strip in E.
      now rewrite (ParserExtras.contains_trans sub keyword _ Hk E) in Hsub. }
    rewrite (No (lit "EDUCATION") (lit "EDUCATION") eq_refl E1) in Hh.
    rewrite (No (lit "PROFESSIONAL EXPERIENCE") (lit "EXPERIENCE") eq_refl E3)
      in Hh.
    rewrite (No (lit "EXPERIENCE") (lit "EXPERIENCE") eq_refl E3) in Hh.
    rewrite (No (lit "TECHNICAL SKILLS") (lit "SKILL") eq_refl E4) in Hh.
    rewrite (No (lit "SKILLS") (lit "SKILL") eq_refl E4) in Hh.
    rewrite (No (lit "CORE SKILLS") (lit "SKILL") eq_refl E4) in Hh.
    cbn [orb] in Hh. apply orb_true_iff in Hh as [Hh | Hh]; [exact Hh|].
    apply contains_strip in Hh. congruence.
  - intros (Hs & E1 & E2 & E3 & E4 & E5).
    rewrite E1, E2, E3, E4, E5, Hs. split; [|reflexivity].
    now rewrite !orb_true_r.
Qed.

End WithUnicode.

(** X9 (witness): a category line with asterisks, added to the empty
    document. *)
Lemma skills_section_has_no_asterisk_witness :
  map text (Converter._add_skills_section []
              [lit "**Languages:** Python, *Go*"]) =
  [[]; lit "TECHNICAL SKILLS"; lit "Languages: Python, Go"] /\
  Forall (fun p => ~ In (ch "*") (text p))
         (Converter._add_skills_section []
            [lit "**Languages:** Python, *Go*"]).
Proof.
  split; [reflexivity|].
  apply (@skills_section_has_no_asterisk basic_latin). constructor.
Defined.

(** X10 (witness): a line without bullet glyph and without full stop. *)
Lemma bullet_content_idempotent_witness :
  Converter.bullet_content (lit "Built the parser") =
    bullet :: lit " Built the parser." /\
  Converter.bullet_content (bullet :: lit " Built the parser.") =
    bullet :: lit " Built the parser.".
Proof.
  split; [reflexivity|].
  exact (@bullet_content_idempotent basic_latin (lit "Built the parser")
           eq_refl eq_refl eq_refl eq_refl).
Defined.

End BuilderExtras.

(* ================================================================= *)
(** ** More about anchors, sections and generated content *)

Module TailorExtras.
Import Tailor Notions StringFacts StoreFacts TailorFacts.

Lemma take_while_all (f : char -> bool) (s : str) :
  forallb f (take_while f s) = true.
Proof.
  induction s as [|c s IH]; [reflexivity|]. cbn [take_while].
  destruct (f c) eqn:E; [|reflexivity]. cbn [forallb]. now rewrite E, IH.
Qed.

Lemma take_while_fixed (f : char -> bool) (s : str) :
  forallb f s = true -> take_while f s = s /\ lstrip_by f s = [].
Proof.
  induction s as [|c s IH]; [now split|]. cbn [forallb take_while lstrip_by].
  intros H. apply andb_true_iff in H as [Hc Hs]. rewrite Hc.
  destruct (IH Hs) as [-> ->]. now split.
Qed.

Lemma folder_id_of_group (g : str) :
  nonempty g = true -> forallb id_char g = true -> is_folder_id g = true.
Proof.
  intros Hne Hall. unfold is_folder_id.
  destruct (take_while_fixed id_char g Hall) as [-> ->]. now rewrite Hne.
Qed.

Lemma folder_search_group (s g : str) :
  folder_search s = Some g -> nonempty g = true /\ forallb id_char g = true.
Proof.
  induction s as [|c s IH]; cbn [folder_search].
  - unfold folder_at. cbn. discriminate.
  - destruct (folder_at (c :: s)) as [group|] eqn:E; [|exact IH].
    intros H. injection H as <-. unfold folder_at in E.
    destruct (startswith _ _); [|discriminate].
    destruct (nonempty (take_while id_char (skipn 9 (c :: s)))) eqn:Hne;
      [|discriminate].
    injection E as <-. split; [exact Hne | apply take_while_all].
Qed.

(** X12: [_extract_drive_folder_id] yields the empty string for the empty
    string; else its result either is its argument or, when the argument is
    no identifier and has "/folders/" followed by an identifier character,
    a non-empty string of identifier characters.  Applied to its own result
    it changes nothing. *)
Theorem extract_drive_folder_id_idempotent (folder_url_or_id : str) :
  _extract_drive_folder_id (_extract_drive_folder_id folder_url_or_id) =
    _extract_drive_folder_id folder_url_or_id /\
  (_extract_drive_folder_id folder_url_or_id = folder_url_or_id \/
   (is_folder_id folder_url_or_id = false /\
    folder_search folder_url_or_id =
      Some (_extract_drive_folder_id folder_url_or_id) /\
    is_folder_id (_extract_drive_folder_id folder_url_or_id) = true)).
Proof.
  unfold _extract_drive_folder_id at 2 3 4 5 6.
  destruct (nonempty folder_url_or_id) eqn:Hne; cbn [negb].
  - destruct (is_folder_id folder_url_or_id) eqn:Hid.
    + split; [|now left]. unfold _extract_drive_folder_id.
      now rewrite Hne, Hid.
    + destruct (folder_search folder_url_or_id) as [g|] eqn:Hs.
      * destruct (folder_search_group _ _ Hs) as [Hg Hall].
        pose proof (folder_id_of_group g Hg Hall) as Hgid.
        split; [|right; now repeat split].
        unfold _extract_drive_folder_id. now rewrite Hg, Hgid.
      * split; [|now left]. unfold _extract_drive_folder_id.
        now rewrite Hne, Hid, Hs.
  - destruct folder_url_or_id; [|discriminate]. split; [reflexivity|now left].
Qed.

Section WithUnicode.
Context {U : Unicode}.

(** *** [_build_style_anchors] *)

Lemma anchors_step_roles (p : Paragraph) (a : Anchors) :
  SectionHeader (anchors_step p a) =
    match SectionHeader a with
    | Some x => Some x
    | None => if is_header p then Some p else None
    end /\
  Contact (anchors_step p a) =
    match Contact a with
    | Some x => Some x
    | None => if contact_test p then Some p else None
    end /\
  Bullet (anchors_step p a) =
    match Bullet a with
    | Some x => Some x
    | None => if bullet_test p then Some p else None
    end /\
  Body (anchors_step p a) =
    match Body a with
    | Some x => Some x
    | None => if body_test p then Some p else None
    end.
Proof.
  unfold anchors_step, is_header, contact_test, bullet_test, body_test.
  destruct a as [[h|] [b|] [y|] [c|]];
    cbn [SectionHeader Bullet Body Contact is_some negb andb];
    repeat match goal with
           | |- context [if ?c then _ else _] => destruct c eqn:?
           end;
    cbn [SectionHeader Bullet Body Contact is_some negb andb] in *;
    repeat split; congruence.
Qed.

Lemma all_found_roles (a : Anchors) :
  all_found a = true ->
  exists h b y c,
    SectionHeader a = Some h /\ Bullet a = Some b /\ Body a = Some y /\
    Contact a = Some c.
Proof.
  unfold all_found. destruct a as [[h|] [b|] [y|] [c|]]; cbn;
    try discriminate. intros _. now exists h, b, y, c.
Qed.

Lemma anchors_loop_roles (ps : list Paragraph) :
  forall a,
    SectionHeader (anchors_loop ps a) =
      match SectionHeader a with
      | Some x => Some x
      | None => find is_header ps
      end /\
    Contact (anchors_loop ps a) =
      match Contact a with
      | Some x => Some x
      | None => find contact_test ps
      end /\
    Bullet (anchors_loop ps a) =
      match Bullet a with
      | Some x => Some x
      | None => find bullet_test ps
      end /\
    Body (anchors_loop ps a) =
      match Body a with
      | Some x => Some x
      | None => find body_test ps
      end.
Proof.
  induction ps as [|p ps IH]; intros a.
  - cbn. repeat split; now destruct a as [[h|] [b|] [y|] [c|]].
  - cbn [anchors_loop find]. cbv zeta.
    destruct (anchors_step_roles p a) as (Eh & Ec & Eb & Ey).
    destruct (all_found (anchors_step p a)) eqn:Hall.
    + destruct (all_found_roles _ Hall) as (h & b & y & c & Hh & Hb & Hy & Hc).
      rewrite Hh in Eh. rewrite Hc in Ec. rewrite Hb in Eb. rewrite Hy in Ey.
      rewrite Hh, Hc, Hb, Hy.
      repeat split.
      * destruct (SectionHeader a); [exact Eh|].
        destruct (is_header p); [exact Eh | discriminate].
      * destruct (Contact a); [exact Ec|].
        destruct (contact_test p); [exact Ec | discriminate].
      * destruct (Bullet a); [exact Eb|].
        destruct (bullet_test p); [exact Eb | discriminate].
      * destruct (Body a); [exact Ey|].
        destruct (body_test p); [exact Ey | discriminate].
    + destruct (IH (anchors_step p a)) as (Ih & Ic & Ib & Iy).
      rewrite Ih, Ic, Ib, Iy, Eh, Ec, Eb, Ey.
      repeat split.
      * destruct (SectionHeader a); [reflexivity|]. now destruct (is_header p).
      * destruct (Contact a); [reflexivity|]. now destruct (contact_test p).
      * destruct (Bullet a); [reflexivity|]. now destruct (bullet_test p).
      * destruct (Body a); [reflexivity|]. now destruct (body_test p).
Qed.

(** X13: [_build_style_anchors] binds each role to the first paragraph of
    the document that passes the test of the role, and leaves it unbound
    when there is none; that the loop stops as soon as the four roles are
    bound changes nothing.  The tests are independent: the Body test does
    not look at the bullet glyph, and one paragraph can be bound to several
    roles. *)
Theorem build_style_anchors_first_match (doc : Document) :
  SectionHeader (_build_style_anchors doc) = find is_header doc /\
  Contact (_build_style_anchors doc) = find contact_test doc /\
  Bullet (_build_style_anchors doc) = find bullet_test doc /\
  Body (_build_style_anchors doc) = find body_test doc.
Proof.
  unfold _build_style_anchors.
  exact (anchors_loop_roles doc (mkAnchors None None None None)).
Qed.

(** *** [_locate_sections] *)

Lemma flatten_sections_app (a b : list DocSection) :
  flatten_sections (a ++ b) = flatten_sections a ++ flatten_sections b.
Proof. unfold flatten_sections. apply flat_map_app. Qed.

Lemma locate_loop_flat (ps : list Paragraph) :
  forall sections (h : Paragraph) body,
    exists ss h' body',
      locate_loop ps sections (Some h) body = (ss, Some h', body') /\
      flatten_sections ss ++ h' :: body' =
      flatten_sections sections ++ h :: body ++ ps.
Proof.
  induction ps as [|p ps IH]; intros sections h body.
  - exists sections, h, body. now rewrite app_nil_r.
  - cbn [locate_loop]. destruct (_is_all_caps_header (strip (text p))).
    + destruct (IH (sections ++ [(Some h, body)]) p [])
        as (ss & h' & body' & E & F).
      exists ss, h', body'. split; [exact E|]. rewrite F.
      rewrite flatten_sections_app. cbn. rewrite app_nil_r.
      now rewrite <- app_assoc.
    + destruct (IH sections h (body ++ [p])) as (ss & h' & body' & E & F).
      exists ss, h', body'. split; [exact E|]. rewrite F.
      now rewrite <- app_assoc.
Qed.

Lemma drop_leading_split (doc : Document) :
  exists lead,
    doc = lead ++ drop_leading doc /\
    forallb (fun p => negb (is_header p)) lead = true /\
    match drop_leading doc with
    | h :: _ => is_header h = true
    | [] => True
    end.
Proof.
  induction doc as [|p doc (lead & E & Hl & Hh)].
  - now exists [].
  - cbn [drop_leading]. destruct (is_header p) eqn:Hp.
    + exists []. now repeat split.
    + exists (p :: lead). cbn [app forallb]. rewrite Hp, Hl.
      repeat split; [now f_equal | exact Hh].
Qed.

Lemma locate_loop_ok (ps : list Paragraph) :
  forall sections current_header current_body,
    Forall section_ok sections ->
    section_ok (current_header, current_body) ->
    Forall section_ok (fst (fst (locate_loop ps sections current_header
                                            current_body))) /\
    section_ok (snd (fst (locate_loop ps sections current_header
                                      current_body)),
                snd (locate_loop ps sections current_header current_body)).
Proof.
  induction ps as [|p ps IH]; intros sections h body Hs Hc.
  - now split.
  - cbn [locate_loop].
    destruct (_is_all_caps_header (strip (text p))) eqn:Hp.
    + apply IH.
      * destruct h as [h|]; [|exact Hs]. apply Forall_app.
        split; [exact Hs | now constructor].
      * split; [exact Hp | constructor].
    + assert (E : match h with
                  | Some _ => locate_loop ps sections h (body ++ [p])
                  | None => locate_loop ps sections h (body ++ [p])
                  end = locate_loop ps sections h (body ++ [p]))
        by now destruct h.
      rewrite E. apply IH; [exact Hs|].
      destruct Hc as [Hh Hb]. split; [exact Hh|]. cbn [snd] in *.
      apply Forall_app. split; [exact Hb | now constructor].
Qed.

(** X14: what [_locate_sections] does with the paragraphs of a document.
    From the first header paragraph on, the sections hold every paragraph
    once and in document order, each header with the paragraphs up to the
    next header; the paragraphs in front of the first header are in no
    section.  A document without header paragraph is one headerless section.
    In every section the header passes the header test and no paragraph of
    the body does. *)
Theorem locate_sections_partition (doc : Document) :
  flatten_sections (_locate_sections doc) =
    match drop_leading doc with
    | [] => doc
    | h :: rest => h :: rest
    end /\
  Forall section_ok (_locate_sections doc).
Proof.
  split.
  - destruct (drop_leading_split doc) as (lead & E & Hl & Hh).
    destruct (drop_leading doc) as [|h rest].
    + rewrite app_nil_r in E. subst lead. unfold _locate_sections.
      rewrite (locate_loop_leading doc [] Hl). cbn [app].
      destruct doc; [reflexivity|]. cbn. now rewrite app_nil_r.
    + rewrite E at 1. rewrite (leading_paragraphs_ignored lead rest h Hl Hh).
      unfold _locate_sections. cbn [locate_loop].
      unfold is_header in Hh. rewrite Hh.
      destruct (locate_loop_flat rest [] h []) as (ss & h' & body' & F & G).
      rewrite F. rewrite flatten_sections_app. cbn. rewrite app_nil_r.
      exact G.
  - unfold _locate_sections.
    destruct (locate_loop_ok doc [] None []) as [Hs Hc].
    { constructor. }
    { split; [exact I | constructor]. }
    destruct (locate_loop doc [] None []) as [[ss h] b].
    cbn [fst snd] in Hs, Hc.
    destruct h as [h|].
    + apply Forall_app. split; [exact Hs | now constructor].
    + destruct b as [|q b]; [exact Hs|].
      apply Forall_app. split; [exact Hs | now constructor].
Qed.

End WithUnicode.

End TailorExtras.

(* ================================================================= *)
(** ** More about parsing generated content *)

Module ContentExtras.
Import Tailor Notions StringFacts.

Section WithUnicode.
Context {U : Unicode}.

Lemma found_section_not_header (line : str) (k : ContentKey) :
  found_section line = Some k -> k <> C_HEADER.
Proof.
  unfold found_section. destruct (find _ content_keywords) as [item|] eqn:E;
    [|discriminate].
  apply find_some in E as [Hin _]. cbn [option_map]. intros H.
  injection H as <-. cbn in Hin.
  repeat (destruct Hin as [<- | Hin]; [discriminate|]). destruct Hin.
Qed.

Lemma ContentKey_eqb_eq (a b : ContentKey) :
  ContentKey_eqb a b = true -> a = b.
Proof. destruct a, b; cbn; congruence. Qed.

Lemma set_content_other (sections : ContentSections) (k k' : ContentKey)
    (v : list str) :
  k' <> k -> set_content sections k v k' = sections k'.
Proof.
  intros H. unfold set_content. destruct k, k'; try reflexivity; congruence.
Qed.

Lemma set_content_same (sections : ContentSections) (k : ContentKey)
    (v : list str) :
  set_content sections k v k = Some v.
Proof. unfold set_content. now destruct k. Qed.

Lemma header_lines_prefix (n : nat) :
  forall lines,
    header_lines_of n lines ++
    before_first_section (skipn (length (header_lines_of n lines)) lines) =
    before_first_section lines.
Proof.
  induction n as [|n IH]; intros lines; [reflexivity|].
  destruct lines as [|line rest]; [reflexivity|].
  cbn [header_lines_of before_first_section].
  destruct (is_some (found_section line)) eqn:E.
  - cbn [length skipn app before_first_section]. now rewrite E.
  - cbn [length skipn app]. now rewrite IH.
Qed.

(** Once a section has started, HEADER is not written any more. *)
Lemma content_fold_in_section (lines : list str) :
  forall sections k cl,
    k <> C_HEADER ->
    fst (fst (fold_left content_step lines (sections, Some k, cl))) C_HEADER =
      sections C_HEADER /\
    exists k',
      snd (fst (fold_left content_step lines (sections, Some k, cl))) =
        Some k' /\ k' <> C_HEADER.
Proof.
  induction lines as [|line lines IH]; intros sections k cl Hk.
  - cbn. split; [reflexivity | now exists k].
  - cbn [fold_left]. unfold content_step at 2 4.
    destruct (found_section line) as [found|] eqn:E.
    + pose proof (found_section_not_header line found E) as Hf.
      destruct (IH (match cl with
                    | [] => sections
                    | _ :: _ => set_content sections k cl
                    end) found [line] Hf) as [H1 H2].
      split; [|exact H2]. rewrite H1.
      destruct cl; [reflexivity|]. apply set_content_other. congruence.
    + now apply IH.
Qed.

Lemma content_fold_header (lines : list str) :
  forall sections acc,
    sections C_HEADER = match acc with [] => None | _ :: _ => Some acc end ->
    fst (fst (fold_left content_step lines (sections, None, []))) C_HEADER =
      match acc ++ before_first_section lines with
      | [] => None
      | _ :: _ => Some (acc ++ before_first_section lines)
      end /\
    (snd (fst (fold_left content_step lines (sections, None, []))) = None \/
     exists k',
       snd (fst (fold_left content_step lines (sections, None, []))) =
         Some k' /\ k' <> C_HEADER).
Proof.
  induction lines as [|line lines IH]; intros sections acc Hacc.
  - cbn. rewrite app_nil_r. split; [exact Hacc | now left].
  - cbn [fold_left before_first_section]. unfold content_step at 2 4 6.
    destruct (found_section line) as [found|] eqn:E; cbn [is_some].
    + pose proof (found_section_not_header line found E) as Hf.
      destruct (content_fold_in_section lines sections found [line] Hf)
        as [H1 H2].
      rewrite app_nil_r. split; [now rewrite H1 | now right].
    + cbv zeta.
      match goal with
      | |- context [set_content ?s C_HEADER (_ ++ [line])] =>
          set (sections0 := s)
      end.
      assert (H0 : match sections0 C_HEADER with Some v => v | None => [] end
                   = acc).
      { subst sections0. rewrite Hacc. destruct acc as [|a acc'].
        - now rewrite set_content_same.
        - now rewrite Hacc. }
      rewrite H0.
      destruct (IH (set_content sections0 C_HEADER (acc ++ [line]))
                   (acc ++ [line])) as [H1 H2].
      { rewrite set_content_same. now destruct acc. }
      rewrite <- app_assoc in H1. cbn [app] in H1. now split.
Qed.

(** X15: the HEADER of generated content is every line in front of the
    first section header line, however many there are: the bound of five
    lines of the first loop has no effect on the result, since the second
    loop files the lines it meets before a section starts under HEADER too.
    The key is absent when the first line is a section header line. *)
Theorem parse_content_header (content : str) :
  let lines := content_lines (split newline content) in
  _parse_content_into_sections content C_HEADER =
  match before_first_section lines with
  | [] => None
  | l => Some l
  end.
Proof.
  cbv zeta. unfold _parse_content_into_sections.
  set (lines := content_lines (split newline content)).
  set (sections0 := match header_lines_of 5 lines with
                    | [] => fun _ => None
                    | _ :: _ =>
                        set_content (fun _ => None) C_HEADER
                                    (header_lines_of 5 lines)
                    end).
  destruct (content_fold_header
              (skipn (length (header_lines_of 5 lines)) lines)
              sections0 (header_lines_of 5 lines)) as [H1 H2].
  { subst sections0. destruct (header_lines_of 5 lines); [reflexivity|].
    apply set_content_same. }
  rewrite header_lines_prefix in H1.
  destruct (fold_left content_step _ _) as [[sections cs] cl].
  cbn [fst snd] in H1, H2.
  assert (E : match cs, cl with
              | Some k, _ :: _ => set_content sections k cl
              | _, _ => sections
              end C_HEADER = sections C_HEADER).
  { destruct H2 as [-> | (k' & -> & Hk')]; [reflexivity|].
    destruct cl; [reflexivity|]. apply set_content_other. congruence. }
  rewrite E, H1. now destruct (before_first_section lines).
Qed.

Lemma content_step_blocks (line : str)
    (st : ContentSections * option ContentKey * list str) :
  (forall k l, k <> C_HEADER -> fst (fst st) k = Some l -> section_block k l) ->
  match snd (fst st) with
  | Some k => section_block k (snd st)
  | None => True
  end ->
  (forall k l, k <> C_HEADER ->
               fst (fst (content_step st line)) k = Some l ->
               section_block k l) /\
  match snd (fst (content_step st line)) with
  | Some k => section_block k (snd (content_step st line))
  | None => True
  end.
Proof.
  destruct st as [[sections cs] cl]. cbn [fst snd]. intros Hs Hc.
  unfold content_step. destruct (found_section line) as [found|] eqn:E.
  - cbn [fst snd]. split; [|now split].
    destruct cs as [k0|]; [|exact Hs]. destruct cl as [|c cl']; [exact Hs|].
    intros k l Hk. unfold set_content.
    destruct (ContentKey_eqb k k0) eqn:Ek; [|now apply Hs].
    intros H. injection H as <-.
    apply ContentKey_eqb_eq in Ek. subst k0. exact Hc.
  - destruct cs as [k0|]; cbn [fst snd].
    + split; [exact Hs|]. destruct cl as [|c cl']; [destruct Hc|].
      destruct Hc as [Hc1 Hc2]. split; [exact Hc1|].
      apply Forall_app. split; [exact Hc2 | now constructor].
    + split; [|exact I]. intros k l Hk.
      rewrite set_content_other by exact Hk.
      destruct (sections C_HEADER); [now apply Hs|].
      rewrite set_content_other by exact Hk. now apply Hs.
Qed.

Lemma content_fold_blocks (lines : list str) :
  forall st,
    (forall k l, k <> C_HEADER -> fst (fst st) k = Some l ->
                 section_block k l) ->
    match snd (fst st) with
    | Some k => section_block k (snd st)
    | None => True
    end ->
    (forall k l, k <> C_HEADER ->
                 fst (fst (fold_left content_step lines st)) k = Some l ->
                 section_block k l) /\
    match snd (fst (fold_left content_step lines st)) with
    | Some k => section_block k (snd (fold_left content_step lines st))
    | None => True
    end.
Proof.
  induction lines as [|line lines IH]; intros st Hs Hc; [now split|].
  cbn [fold_left].
  destruct (content_step_blocks line st Hs Hc) as [Hs' Hc'].
  now apply IH.
Qed.

(** X16: every section of generated content other than HEADER is stored
    with its header line: the first line of the list is a line in which the
    keywords of that section are found first, and no other line of the list
    has a section keyword. *)
Theorem parse_content_section_blocks (content : str) (k : ContentKey)
    (l : list str) :
  k <> C_HEADER ->
  _parse_content_into_sections content k = Some l ->
  exists x rest,
    l = x :: rest /\ found_section x = Some k /\
    Forall (fun y => found_section y = None) rest.
Proof.
  intros Hk. unfold _parse_content_into_sections.
  set (lines := content_lines (split newline content)).
  set (sections0 := match header_lines_of 5 lines with
                    | [] => fun _ => None
                    | _ :: _ =>
                        set_content (fun _ => None) C_HEADER
                                    (header_lines_of 5 lines)
                    end).
  destruct (content_fold_blocks
              (skipn (length (header_lines_of 5 lines)) lines)
              (sections0, None, [])) as [Hs Hc].
  { cbn [fst snd]. intros k0 l0 Hk0. subst sections0.
    destruct (header_lines_of 5 lines); [discriminate|].
    rewrite set_content_other by exact Hk0. discriminate. }
  { exact I. }
  destruct (fold_left content_step _ _) as [[sections cs] cl].
  cbn [fst snd] in Hs, Hc. intros H.
  assert (B : section_block k l).
  { destruct cs as [k0|]; [|now apply Hs].
    destruct cl as [|c cl']; [now apply Hs|].
    unfold set_content in H. destruct (ContentKey_eqb k k0) eqn:Ek.
    - injection H as <-.
      apply ContentKey_eqb_eq in Ek. subst k0. exact Hc.
    - now apply Hs. }
  destruct l as [|x rest]; [destruct B|].
  destruct B as [B1 B2]. now exists x, rest.
Qed.

End WithUnicode.

(** X16 (witness): a skills section after two header lines. *)
Lemma parse_content_section_blocks_witness :
  Tailor._parse_content_into_sections
    (lit "Jane Doe" ++ [Tailor.newline] ++ lit "jane@example.com" ++
     [Tailor.newline] ++ lit "Core Skills" ++ [Tailor.newline] ++
     lit "Python, Go") Tailor.C_SKILLS =
    Some [lit "Core Skills"; lit "Python, Go"] /\
  Tailor.found_section (lit "Core Skills") = Some Tailor.C_SKILLS.
Proof.
  split; [reflexivity|].
  destruct (@parse_content_section_blocks basic_latin
              (lit "Jane Doe" ++ [Tailor.newline] ++ lit "jane@example.com" ++
               [Tailor.newline] ++ lit "Core Skills" ++ [Tailor.newline] ++
               lit "Python, Go") Tailor.C_SKILLS
              [lit "Core Skills"; lit "Python, Go"])
    as (x & rest & E & Hx & _).
  - discriminate.
  - reflexivity.
  - injection E as <- _. exact Hx.
Defined.

End ContentExtras.

(* ================================================================= *)
(** ** More about replacing and rewriting the body of a section *)

Module BodyExtras.
Import Tailor Notions StringFacts StoreFacts.





Section WithUnicode.
Context {U : Unicode}.

Lemma replace_lines_no_template (new_lines : list str) :
  forall i anchors st,
    replace_lines i new_lines anchors st [] = (st, []).
Proof.
  induction new_lines as [|line rest IH]; intros i anchors st;
    [reflexivity|].
  cbn [replace_lines].
  assert (E : nth_error (@nil Paragraph) i = None) by now destruct i.
  rewrite E. destruct (_choose_anchor line anchors); apply IH.
Qed.

(** X17: a section whose template body is empty takes no content: whatever
    the new lines and the anchors are, [_replace_section_body] leaves the
    document as it is and adds no paragraph. *)
Theorem replace_section_body_no_template (st : Store) (new_lines : list str)
    (anchors : Anchors) :
  _replace_section_body st [] new_lines anchors = (st, []).
Proof.
  unfold _replace_section_body. rewrite replace_lines_no_template.
  unfold clear_excess. now rewrite skipn_nil.
Qed.







End WithUnicode.


End BodyExtras.

(* ================================================================= *)
(** ** More about the normalisation of replacement lines *)

Module StrictExtras.
Import Strict Notions StringFacts StoreFacts StrictFacts.

Section WithUnicode.
Context {U : Unicode}.

Lemma collapse_single_spaced (s : str) :
  single_spaced s = true ->
  collapse_ws_from false s = s /\
  (match s with c :: _ => isspace c = false | [] => True end ->
   collapse_ws_from true s = s).
Proof.
  induction s as [|c s IH]; intros H; [now split|].
  cbn [single_spaced] in H. apply andb_true_iff in H as [Hc Hs].
  destruct (IH Hs) as [IH1 IH2]. cbn [collapse_ws_from].
  destruct (isspace c) eqn:Ec.
  - apply andb_true_iff in Hc as [Hsp Hnext]. apply N.eqb_eq in Hsp.
    split; [|discriminate]. rewrite IH2; [now rewrite Hsp|].
    destruct s as [|d s']; [exact I|]. now apply negb_true_iff in Hnext.
  - rewrite IH1. now split.
Qed.

Lemma sanitize_fixed (s : str) : _sanitize (_sanitize s) = _sanitize s.
Proof.
  pose proof (sanitize_head s) as Hh.
  pose proof (sanitize_last s) as Hl.
  pose proof (sanitize_single_spaced s) as Hs.
  set (r := _sanitize s) in *.
  assert (Hstrip : strip r = r).
  { apply BuilderExtras.strip_fixed; [|exact Hl].
    destruct r as [|c t]; [exact I | now apply leading_glyph_space]. }
  unfold _sanitize. rewrite Hstrip.
  assert (Hg : lstrip_by leading_glyph r = r).
  { destruct r as [|c t]; [reflexivity | now apply lstrip_by_fixed]. }
  rewrite Hg. unfold collapse_ws.
  rewrite (proj1 (collapse_single_spaced r Hs)). exact Hstrip.
Qed.

Lemma clean_lines_fixed (lines : list str) :
  clean_lines_of (clean_lines_of lines) = clean_lines_of lines.
Proof.
  induction lines as [|ln rest IH]; [reflexivity|].
  cbn [clean_lines_of]. cbv zeta.
  destruct (nonempty (_sanitize ln)) eqn:E; [|exact IH].
  cbn [clean_lines_of]. cbv zeta. rewrite sanitize_fixed, E. now rewrite IH.
Qed.

(** X19: the normalisation of a replacement line is idempotent, and so is
    the normalisation of a list of lines: a normalised line has no leading
    glyph, no whitespace at its ends and no run of whitespace left to
    change, and it is not discarded. *)
Theorem sanitize_idempotent (s : str) (lines : list str) :
  _sanitize (_sanitize s) = _sanitize s /\
  clean_lines_of (clean_lines_of lines) = clean_lines_of lines /\
  Forall (fun t => _sanitize t = t /\ t <> []) (clean_lines_of lines).
Proof.
  split; [apply sanitize_fixed|]. split; [apply clean_lines_fixed|].
  induction lines as [|ln rest IH]; [constructor|].
  cbn [clean_lines_of]. cbv zeta.
  destruct (nonempty (_sanitize ln)) eqn:E; [|exact IH].
  constructor; [|exact IH]. split; [apply sanitize_fixed|].
  now destruct (_sanitize ln).
Qed.

(** X20: [rewrite_section_from_lines] reads its lines through the
    normalisation only: given the normalised lines in place of the lines,
    it leaves the same document and ends in the same way, in both
    renderings and with or without verification. *)
Theorem rewrite_with_normalised_lines (st : Store) (header : Paragraph)
    (old_body : list Paragraph) (lines : list str)
    (bullet_anchor body_anchor : option Paragraph)
    (strict_verify mixed_mode : bool) :
  rewrite_section_from_lines st header old_body (clean_lines_of lines)
                             bullet_anchor body_anchor strict_verify
                             mixed_mode =
  rewrite_section_from_lines st header old_body lines bullet_anchor
                             body_anchor strict_verify mixed_mode.
Proof.
  pose proof (rewrite_unfold st header old_body (clean_lines_of lines)
                bullet_anchor body_anchor strict_verify mixed_mode) as E1.
  pose proof (rewrite_unfold st header old_body lines bullet_anchor
                body_anchor strict_verify mixed_mode) as E2.
  cbv zeta in E1, E2. rewrite E1, E2. now rewrite clean_lines_fixed.
Qed.

End WithUnicode.

End StrictExtras.

(* ================================================================= *)
(** ** A round trip of the codec *)

Module RoundTrip.
Import Converter Notions StringFacts ConverterFacts DecoderFacts StoreFacts.

Section WithUnicode.
Context {U : Unicode}.






End WithUnicode.


End RoundTrip.

(* ================================================================= *)
(** ** Replacing the sections of a template *)

Module SectionsExtras.
Import Tailor Notions StringFacts StoreFacts BodyFacts.

Section WithUnicode.
Context {U : Unicode}.







Lemma matched_none_unmapped (st : Store) (h : Paragraph)
    (new_sections : NewSections) :
  unmapped st h = true ->
  matched_section_of (upper (strip (text (deref st h)))) new_sections = None.
Proof.
  intros Hu. unfold matched_section_of.
  induction new_sections as [|item rest IH]; [reflexivity|].
  cbn [find].
  assert (E : key_matches (upper (strip (text (deref st h)))) (fst item)
              = false).
  { unfold unmapped in Hu. apply negb_true_iff in Hu.
    destruct (key_matches (upper (strip (text (deref st h)))) (fst item))
      eqn:X; [|reflexivity].
    unfold key_matches in X. apply existsb_exists in X as (m & Hin & Hm).
    apply andb_true_iff in Hm as [_ Hm].
    assert (Y : existsb (fun item0 =>
                           existsb (fun keyword =>
                                      contains keyword
                                        (upper (strip (text (deref st h)))))
                                   (snd item0)) section_mapping = true)
      by (apply existsb_exists; now exists m).
    congruence. }
  rewrite E, andb_false_r. exact IH.
Qed.

Lemma fold_sections_unmapped (new_sections : NewSections) (anchors : Anchors)
    (st : Store) (template_sections : list DocSection) :
  Forall (fun s => match fst s with
                   | Some h => unmapped st h = true
                   | None => True
                   end) template_sections ->
  fold_left (replace_template_section new_sections anchors) template_sections
            st = st.
Proof.
  induction 1 as [|section rest Hs _ IH]; [reflexivity|].
  cbn [fold_left].
  assert (E : replace_template_section new_sections anchors st section = st).
  { unfold replace_template_section. destruct (fst section) as [h|];
      [|reflexivity].
    cbv zeta. now rewrite (matched_none_unmapped st h new_sections Hs). }
  rewrite E. exact IH.
Qed.

(** X23: a template section is rewritten only through the keywords of
    [section_mapping].  When the first template section has a header, the
    HEADER lines of the new content are not used; when moreover no title of
    a template section has a keyword of the mapping in it, the document is
    left as it is, whatever the new content is.  A section titled "SKILLS"
    is such a section: the keywords of SKILLS are "TECHNICAL SKILLS" and
    "CORE SKILLS". *)
Theorem replace_sections_unmapped_titles (st : Store) (h : Paragraph)
    (body : list Paragraph) (rest : list DocSection)
    (new_sections : NewSections) (anchors : Anchors) :
  Forall (fun s => match fst s with
                   | Some h' => unmapped st h' = true
                   | None => True
                   end) ((Some h, body) :: rest) ->
  _replace_sections_preserve_formatting st ((Some h, body) :: rest)
                                        new_sections anchors = st.
Proof.
  intros H. unfold _replace_sections_preserve_formatting.
  assert (E : replace_header_lines new_sections ((Some h, body) :: rest) st
              = st).
  { unfold replace_header_lines.
    now destruct (lookup new_sections (lit "HEADER")). }
  rewrite E. now apply fold_sections_unmapped.
Qed.


End WithUnicode.



(** X23 (witness): the SKILLS document, whose sections are titled "SKILLS"
    and "SQL", is given content for SKILLS and keeps its texts. *)
Lemma replace_sections_unmapped_titles_witness :
  map (fun s => option_map text (fst s))
      (Tailor._locate_sections (paragraphs Samples.skills_store)) =
    [Some (lit "SKILLS"); Some (lit "SQL")] /\
  map text
    (paragraphs
       (Tailor._replace_sections_preserve_formatting Samples.skills_store
          (Tailor._locate_sections (paragraphs Samples.skills_store))
          Samples.skills_content
          (Tailor._build_style_anchors (paragraphs Samples.skills_store)))) =
  [lit "SKILLS"; lit "Python"; lit "SQL"].
Proof.
  split; [reflexivity|].
  change (Tailor._locate_sections (paragraphs Samples.skills_store))
    with [(Some (Samples.heading 0 "SKILLS"), [Samples.plain 1 "Python"]);
          (Some (Samples.plain 2 "SQL"), @nil Paragraph)].
  rewrite (@replace_sections_unmapped_titles basic_latin Samples.skills_store
             (Samples.heading 0 "SKILLS") [Samples.plain 1 "Python"]
             [(Some (Samples.plain 2 "SQL"), [])]
             Samples.skills_content).
  - reflexivity.
  - repeat constructor.
Defined.

End SectionsExtras.
